(** * Chunkify (ielts2go-chunker): the chunking and HLS driver of [chunker.js]

    A shallow embedding of the control flow of [chunker.js]: command-line
    validation, the sequential chunk loop of [processChunks], the HLS
    invocation with its single fallback, and the text artifacts written after
    a successful HLS conversion.  The external engine (ffmpeg / ffprobe), the
    file-system probes and the interactive answers are inputs of the model;
    everything the driver does is recorded, in order, in a trace of events. *)

From Stdlib Require Import ZArith QArith Qround Qminmax Lqa List String Ascii Bool Lia.
From Stdlib Require Import DecimalString DecimalNat FinFun.
Import ListNotations.

Local Open Scope list_scope.
Local Open Scope string_scope.

(** ** JavaScript values used by the driver *)

Module JS.

(** A JavaScript number.  Finite doubles are modelled by exact rationals
    (rounding and the sign of zero are not modelled); [NaN] and the two
    infinities are kept apart, since [parseInt] and the division of
    [processChunks] can produce them. *)
Inductive number : Type :=
| Num (q : Q)
| NaN
| PosInf
| NegInf.

Definition of_Z (z : Z) : number := Num (inject_Z z).
Definition of_nat (n : nat) : number := of_Z (Z.of_nat n).

Definition Qlt_bool (x y : Q) : bool := negb (Qle_bool y x).
Definition Qis_zero (x : Q) : bool := Qeq_bool x 0.

(** [a < b] and [a <= b]: every comparison with [NaN] is false. *)
Definition lt (a b : number) : bool :=
  match a, b with
  | NaN, _ | _, NaN => false
  | Num x, Num y => Qlt_bool x y
  | NegInf, NegInf => false
  | NegInf, _ => true
  | _, PosInf => match a with PosInf => false | _ => true end
  | _, _ => false
  end.

Definition le (a b : number) : bool :=
  match a, b with
  | NaN, _ | _, NaN => false
  | Num x, Num y => Qle_bool x y
  | NegInf, _ => true
  | _, PosInf => true
  | _, _ => false
  end.

(** The sign of a rational as an infinity ([x] is not zero). *)
Definition inf_of_sign (x : Q) : number :=
  if Qlt_bool 0 x then PosInf else NegInf.

(** [a / b]. *)
Definition div (a b : number) : number :=
  match a, b with
  | NaN, _ | _, NaN => NaN
  | Num x, Num y =>
      if Qis_zero y then (if Qis_zero x then NaN else inf_of_sign x)
      else Num (x / y)
  | Num _, _ => Num 0
  | PosInf, Num y => if Qlt_bool y 0 then NegInf else PosInf
  | NegInf, Num y => if Qlt_bool y 0 then PosInf else NegInf
  | _, _ => NaN
  end.

(** [a * b]. *)
Definition mul (a b : number) : number :=
  match a, b with
  | NaN, _ | _, NaN => NaN
  | Num x, Num y => Num (x * y)
  | Num x, PosInf | PosInf, Num x =>
      if Qis_zero x then NaN else inf_of_sign x
  | Num x, NegInf | NegInf, Num x =>
      if Qis_zero x then NaN else inf_of_sign (- x)
  | PosInf, PosInf | NegInf, NegInf => PosInf
  | _, _ => NegInf
  end.

(** [a === b] on numbers: [NaN] equals nothing. *)
Definition strict_eq (a b : number) : bool :=
  match a, b with
  | Num x, Num y => Qeq_bool x y
  | PosInf, PosInf | NegInf, NegInf => true
  | _, _ => false
  end.

(** [Math.ceil]. *)
Definition ceil (a : number) : number :=
  match a with
  | Num x => of_Z (Qceiling x)
  | other => other
  end.

(** Truthiness of a number: [0] and [NaN] are falsy. *)
Definition truthy (a : number) : bool :=
  match a with
  | Num x => negb (Qis_zero x)
  | NaN => false
  | _ => true
  end.

(** [a || b] on numbers. *)
Definition or_else (a b : number) : number := if truthy a then a else b.

(** *** Strings *)

Definition is_digit (c : ascii) : bool :=
  let n := nat_of_ascii c in (48 <=? n)%nat && (n <=? 57)%nat.

Definition digit_value (c : ascii) : Z := Z.of_nat (nat_of_ascii c - 48).

(** The ASCII part of the white space [parseInt] skips: TAB, LF, VT, FF, CR
    and SPACE. *)
Definition is_space (c : ascii) : bool :=
  let n := nat_of_ascii c in ((9 <=? n)%nat && (n <=? 13)%nat) || (n =? 32)%nat.

Fixpoint skip_spaces (s : string) : string :=
  match s with
  | String c rest => if is_space c then skip_spaces rest else s
  | EmptyString => s
  end.

(** The value of the longest prefix of decimal digits of [s], read after the
    digits of value [acc]; [None] when no digit has been read at all. *)
Fixpoint digits_prefix (s : string) (acc : option Z) : option Z :=
  match s with
  | String c rest =>
      if is_digit c
      then digits_prefix rest
             (Some (10 * match acc with Some a => a | None => 0 end + digit_value c)%Z)
      else acc
  | EmptyString => acc
  end.

(** [parseInt(s, 10)]: leading white space, an optional sign, then the
    longest run of decimal digits; [NaN] when there is no digit. *)
Definition parseInt10 (s : string) : number :=
  let body := skip_spaces s in
  let '(negative, digits) :=
    match body with
    | String "-" rest => (true, rest)
    | String "+" rest => (false, rest)
    | _ => (false, body)
    end in
  match digits_prefix digits None with
  | Some v => of_Z (if negative then - v else v)
  | None => NaN
  end.

(** [String(n)] for a non-negative integer. *)
Definition string_of_nat (n : nat) : string :=
  NilEmpty.string_of_uint (Nat.to_uint n).

(** [String(z)] for an integer. *)
Definition string_of_Z (z : Z) : string :=
  NilEmpty.string_of_int (Z.to_int z).

Fixpoint repeat_string (fill : string) (n : nat) : string :=
  match n with
  | O => ""
  | S k => fill ++ repeat_string fill k
  end.

(** [s.padStart(target, fill)]: [s] itself when it is already [target]
    characters long or [fill] is empty, otherwise [fill] repeated and
    truncated to the missing length, then [s]. *)
Definition padStart (target : nat) (fill : string) (s : string) : string :=
  let missing := (target - String.length s)%nat in
  match missing, fill with
  | O, _ | _, EmptyString => s
  | _, _ => substring 0 missing (repeat_string fill missing) ++ s
  end.

(** [hay.includes(needle)] on strings. *)
Fixpoint includes (needle hay : string) : bool :=
  if prefix needle hay then true
  else match hay with
       | String _ rest => includes needle rest
       | EmptyString => false
       end.

(** [list.includes(x)] on arrays of strings. *)
Definition array_includes (l : list string) (x : string) : bool :=
  existsb (String.eqb x) l.

Definition lower_ascii (c : ascii) : ascii :=
  let n := nat_of_ascii c in
  if (65 <=? n)%nat && (n <=? 90)%nat then ascii_of_nat (n + 32) else c.

(** [s.toLowerCase()], on the ASCII letters. *)
Fixpoint toLowerCase (s : string) : string :=
  match s with
  | String c rest => String (lower_ascii c) (toLowerCase rest)
  | EmptyString => EmptyString
  end.

(** [s.slice(1)]. *)
Definition slice1 (s : string) : string :=
  match s with
  | String _ rest => rest
  | EmptyString => EmptyString
  end.

(** [a || b] on strings: the empty string is falsy. *)
Definition str_or (a b : string) : string :=
  match a with
  | EmptyString => b
  | _ => a
  end.

(** [a || b] where [a] may be [undefined]. *)
Definition opt_str_or (a : option string) (b : string) : string :=
  match a with
  | Some s => str_or s b
  | None => b
  end.

End JS.

(** ** The command line, the environment and the trace *)

(** [program.opts()]: the flags as commander hands them over, all strings
    except the two booleans. *)
Record Options : Type := {
  opt_directory : string;
  opt_length : string;
  opt_prefix : string;
  opt_quality : string;
  opt_hls : bool;
  opt_hlsSegment : string;
  opt_hlsType : string;
  opt_progress : bool
}.

(** [program.args[0]] and [program.opts()], as they are once
    [program.parse] has returned.  The positional [<input-file>] is declared
    required, so the argument parser itself ends a command line without it
    and no such command line reaches [run]: [inputFile] is always a string
    here, the empty string only when it was given as such (['']). *)
Record CommandLine : Type := {
  inputFile : string;
  options : Options
}.

(** The defaults of the option declarations. *)
Definition default_options : Options := {|
  opt_directory := "ielts2go_chunks";
  opt_length := "60";
  opt_prefix := "ielts2go_chunk";
  opt_quality := "fast";
  opt_hls := false;
  opt_hlsSegment := "4";
  opt_hlsType := "vod";
  opt_progress := true
|}.

Inductive Mode : Type := copy | encode | hls.

(** The object [setupOutput] returns and [run] builds for [--hls], by its
    [mode] field: the two HLS fields exist exactly when [mode] is ['hls']. *)
Inductive OutputConfig : Type :=
| CopyConfig (extension : string)
| EncodeConfig (extension : string)
| HlsConfig (extension : string) (segmentLength : JS.number) (playlistType : string).

Definition mode_of (c : OutputConfig) : Mode :=
  match c with
  | CopyConfig _ => copy
  | EncodeConfig _ => encode
  | HlsConfig _ _ _ => hls
  end.

Definition extension_of (c : OutputConfig) : string :=
  match c with
  | CopyConfig e | EncodeConfig e | HlsConfig e _ _ => e
  end.

(** One stream of ffprobe's answer, and its [format] part. *)
Record Stream : Type := {
  codec_type : string;
  codec_name : option string;
  width : Z;
  height : Z
}.

Record Format : Type := {
  format_duration : option JS.number;
  bit_rate : option Z
}.

(** What the callback of [ffmpeg.ffprobe] receives. *)
Inductive ProbeAnswer : Type :=
| ProbeFailed (message : string)
| ProbeData (format : Format) (streams : list Stream).

(** The object [getVideoMetadata] resolves with.  [createMasterPlaylist] is
    also called with the empty object, so every field may be undefined. *)
Record Metadata : Type := {
  duration : option JS.number;
  hasVideo : option bool;
  hasAudio : option bool;
  videoCodec : option string;
  audioCodec : option string;
  resolution : option string;
  bitrate : option Z
}.

Definition empty_metadata : Metadata := {|
  duration := None; hasVideo := None; hasAudio := None;
  videoCodec := None; audioCodec := None; resolution := None; bitrate := None
|}.

(** An argument of [outputOptions]: a string or a number. *)
Inductive Arg : Type :=
| Str (s : string)
| Number (n : JS.number).

(** A fluent-ffmpeg command as built before [.run()]. *)
Record Command : Type := {
  cmd_input : string;
  cmd_seekInput : option JS.number;
  cmd_duration : option JS.number;
  cmd_outputOptions : list Arg;
  cmd_output : string
}.

(** The completion signal of an invocation: the ['end'] event, or ['error']
    with the error's message. *)
Inductive Completion : Type :=
| End
| Error (message : string).

(** The answers given to the prompts of [setupOutput]. *)
Inductive FormatChoice : Type := mp4 | mkv | avi | mov | custom.

Definition format_value (f : FormatChoice) : string :=
  match f with
  | mp4 => "mp4" | mkv => "mkv" | avi => "avi" | mov => "mov" | custom => "custom"
  end.

Record Answers : Type := {
  ans_mode : Mode;
  ans_extension : FormatChoice;
  ans_customExtension : string;
  ans_segmentLength : JS.number;
  ans_playlistType : string
}.

(** Everything outside the driver.  [ffmpeg_run n c] is the completion
    signal of command [c] when [n] invocations were started before it. *)
Record Environment : Type := {
  input_exists : bool;
  outputDir_exists : bool;
  hlsDir_exists : bool;
  input_extname : string;
  answers : Answers;
  ffprobe : ProbeAnswer;
  ffmpeg_run : nat -> Command -> Completion
}.

Inductive Level : Type := success | error | warning.

(** The files the driver writes.  The master playlist is kept as its exact
    text; the three static templates are kept as the values interpolated
    into them.  [source] is the input file as it was given: the metadata
    file and the player page show [path.basename] of it. *)
Inductive Artifact : Type :=
| MetadataJson (source : string) (chunkLength : JS.number)
    (qualityPreset outputDirectory : string)
| MasterPlaylist (text : string)
| PlayerHtml (source playlistPath : string) (metadata : Metadata)
| PlaybackReadme (playlistPath filePrefix : string).

(** What the driver does, in order.  Of the console output only the
    [log.success], [log.warning] and [log.error] lines and [console.error]
    are recorded. *)
Inductive Event : Type :=
| Log (level : Level) (message : string)
| ConsoleError (message : string)
| Mkdir (path : string)
| WriteFile (path : string) (content : Artifact)
| Run (command : Command)
| Ended (command : Command)
| Failed (command : Command) (message : string).

Definition Trace : Type := list Event.

(** ** Control: a state-and-exception monad over the trace *)

(** How a computation stops: with a value, with a thrown error (a rejected
    promise), with [process.exit], or because the model's bound on loop
    iterations ran out. *)
Inductive Result (A : Type) : Type :=
| Ok (a : A)
| Throw (message : string)
| Exit (code : Z)
| OutOfFuel.

Arguments Ok {A} a.
Arguments Throw {A} message.
Arguments Exit {A} code.
Arguments OutOfFuel {A}.

Definition M (A : Type) : Type := Trace -> Result A * Trace.

Definition ret {A : Type} (a : A) : M A := fun tr => (Ok a, tr).

Definition bind {A B : Type} (m : M A) (k : A -> M B) : M B :=
  fun tr =>
    match m tr with
    | (Ok a, tr') => k a tr'
    | (Throw e, tr') => (Throw e, tr')
    | (Exit c, tr') => (Exit c, tr')
    | (OutOfFuel, tr') => (OutOfFuel, tr')
    end.

Declare Scope driver_scope.
Delimit Scope driver_scope with driver.

Notation "x <- m ;; k" := (bind m (fun x => k))
  (at level 100, m at next level, right associativity) : driver_scope.
Notation "m ;; k" := (bind m (fun _ => k))
  (at level 100, right associativity) : driver_scope.

Local Open Scope driver_scope.

Definition emit (e : Event) : M unit := fun tr => (Ok tt, (tr ++ [e])%list).
Definition throw {A : Type} (message : string) : M A := fun tr => (Throw message, tr).
Definition exit {A : Type} (code : Z) : M A := fun tr => (Exit code, tr).
Definition out_of_fuel {A : Type} : M A := fun tr => (OutOfFuel, tr).
Definition when (b : bool) (m : M unit) : M unit := if b then m else ret tt.

(** [try { body } catch (e) { handler e }]: only a thrown error is caught. *)
Definition try_catch {A : Type} (body : M A) (handler : string -> M A) : M A :=
  fun tr =>
    match body tr with
    | (Throw e, tr') => handler e tr'
    | other => other
    end.

Definition log_success (m : string) : M unit := emit (Log success m).
Definition log_error (m : string) : M unit := emit (Log error m).
Definition log_warning (m : string) : M unit := emit (Log warning m).

(** The invocations started so far. *)
Fixpoint invocations (tr : Trace) : list Command :=
  match tr with
  | Run c :: rest => c :: invocations rest
  | _ :: rest => invocations rest
  | [] => []
  end.

(** [command.on('end', ..).on('error', ..).run()] awaited: the invocation is
    started, and the driver resumes with its completion signal. *)
Definition invoke (run_engine : nat -> Command -> Completion) (c : Command) : M Completion :=
  fun tr =>
    let signal := run_engine (List.length (invocations tr)) c in
    (Ok signal,
     (tr ++ [Run c; match signal with End => Ended c | Error e => Failed c e end])%list).

(** [path.join(a, b)] before normalisation: the two parts with the separator
    between them.  Node then folds [.] and [..] segments and doubled
    separators and drops an empty part; that folding is not modelled, so the
    string here is the path as the driver composes it, and it names the same
    file as Node's result only when the parts hold no such segments. *)
Definition path_join (a b : string) : string := a ++ "/" ++ b.

Definition dquote : string := String (ascii_of_nat 34) EmptyString.
Definition newline : string := String (ascii_of_nat 10) EmptyString.

(** ** The driver *)

Section Driver.

Variable cli : CommandLine.
Variable env : Environment.

(** The module-level constants read from the command line. *)
Definition outputDir : string := opt_directory (options cli).
Definition chunkLength : JS.number := JS.parseInt10 (opt_length (options cli)).
Definition filePrefix : string := opt_prefix (options cli).
Definition qualityPreset : string := opt_quality (options cli).
Definition showProgress : bool := opt_progress (options cli).

Definition validPresets : list string :=
  ["ultrafast"; "superfast"; "veryfast"; "faster"; "fast"; "medium"; "slow";
   "slower"; "veryslow"].

(** [validateInput()]. *)
Definition validateInput : M unit :=
  when (String.eqb (inputFile cli) "")
    (log_error "No input file specified. Use --help for usage information." ;;
     exit 1) ;;
  when (negb (input_exists env))
    (log_error ("Input file not found: " ++ dquote ++ inputFile cli ++ dquote) ;;
     exit 1) ;;
  when (JS.le chunkLength (JS.of_Z 0))
    (log_error "Chunk length must be greater than 0 seconds." ;;
     exit 1) ;;
  when (negb (JS.array_includes validPresets qualityPreset))
    (log_warning ("Invalid quality preset: " ++ dquote ++ qualityPreset ++ dquote
                  ++ ". Using " ++ dquote ++ "fast" ++ dquote ++ " instead.")).

(** [setupOutput()], on the answers given to its prompts. *)
Definition setupOutput : M OutputConfig :=
  match ans_mode (answers env) with
  | encode =>
      match ans_extension (answers env) with
      | custom => ret (EncodeConfig (ans_customExtension (answers env)))
      | chosen => ret (EncodeConfig (format_value chosen))
      end
  | hls =>
      ret (HlsConfig "ts" (ans_segmentLength (answers env))
             (ans_playlistType (answers env)))
  | copy =>
      let originalExtension :=
        JS.str_or (JS.toLowerCase (JS.slice1 (input_extname env))) "mp4" in
      ret (CopyConfig originalExtension)
  end.

(** The object [getVideoMetadata] resolves with, from ffprobe's answer. *)
Definition probedMetadata (format : Format) (streams : list Stream) : Metadata :=
  let videoStream := find (fun s => String.eqb (codec_type s) "video") streams in
  let audioStream := find (fun s => String.eqb (codec_type s) "audio") streams in
  {| duration := format_duration format;
     hasVideo := Some match videoStream with Some _ => true | None => false end;
     hasAudio := Some match audioStream with Some _ => true | None => false end;
     videoCodec := match videoStream with Some v => codec_name v | None => None end;
     audioCodec := match audioStream with Some a => codec_name a | None => None end;
     resolution :=
       Some match videoStream with
            | Some v => JS.string_of_Z (width v) ++ "x" ++ JS.string_of_Z (height v)
            | None => "Unknown"
            end;
     bitrate := bit_rate format |}.

(** [getVideoMetadata(inputFile)]. *)
Definition getVideoMetadata : M Metadata :=
  match ffprobe env with
  | ProbeFailed message => throw message
  | ProbeData format streams => ret (probedMetadata format streams)
  end.

(** [createOutputDirectory()].  [fs.mkdirSync] and [fs.writeFileSync] are
    taken to succeed, here and in the functions below: a failure of the
    file system is outside the model. *)
Definition createOutputDirectory : M unit :=
  when (negb (outputDir_exists env)) (emit (Mkdir outputDir)) ;;
  let metadataPath := path_join outputDir "ielts2go_metadata.json" in
  emit (WriteFile metadataPath
          (MetadataJson (inputFile cli) chunkLength qualityPreset outputDir)) ;;
  log_success ("Metadata saved to: " ++ metadataPath).

(** [createHLSPlayer(playlistPath, metadata)]. *)
Definition createHLSPlayer (playlistPath : string) (metadata : Metadata) : M unit :=
  let playerPath := path_join outputDir "player.html" in
  emit (WriteFile playerPath (PlayerHtml (inputFile cli) playlistPath metadata)) ;;
  log_success ("HTML player created: " ++ playerPath) ;;
  let readmePath := path_join outputDir "PLAYBACK.md" in
  emit (WriteFile readmePath (PlaybackReadme playlistPath filePrefix)).

(** The template literal of [createMasterPlaylist]. *)
Definition masterPlaylistContent (metadata : Metadata) : string :=
  "#EXTM3U" ++ newline ++
  "#EXT-X-VERSION:3" ++ newline ++
  "#EXT-X-STREAM-INF:BANDWIDTH=2800000,RESOLUTION="
    ++ JS.opt_str_or (resolution metadata) "1280x720" ++ newline ++
  "hls/" ++ filePrefix ++ ".m3u8" ++ newline.

(** [createMasterPlaylist(hlsDir, metadata)]; the source never reads its
    [hlsDir] parameter, which is left out. *)
Definition createMasterPlaylist (metadata : Metadata) : M unit :=
  let masterPlaylistPath := path_join outputDir (filePrefix ++ "_master.m3u8") in
  emit (WriteFile masterPlaylistPath (MasterPlaylist (masterPlaylistContent metadata))) ;;
  log_success ("Master playlist created: " ++ masterPlaylistPath) ;;
  createHLSPlayer masterPlaylistPath metadata.

(** The command [tryLastResortHLSConversion] builds. *)
Definition lastResortCommand (playlistPath segmentPattern : string) : Command := {|
  cmd_input := inputFile cli;
  cmd_seekInput := None;
  cmd_duration := None;
  cmd_outputOptions :=
    [Str "-c:v"; Str "libx264";
     Str "-preset"; Str "ultrafast";
     Str "-c:a"; Str "aac";
     Str "-hls_time"; Number (JS.of_Z 4);
     Str "-hls_segment_filename"; Str segmentPattern;
     Str "-f"; Str "hls"];
  cmd_output := playlistPath
|}.

(** [tryLastResortHLSConversion(inputFile, playlistPath, segmentPattern)]. *)
Definition tryLastResortHLSConversion (playlistPath segmentPattern : string) : M unit :=
  signal <- invoke (ffmpeg_run env) (lastResortCommand playlistPath segmentPattern) ;;
  match signal with
  | End =>
      log_success "HLS stream created successfully with minimal parameters" ;;
      createMasterPlaylist empty_metadata
  | Error message =>
      log_error ("Last resort HLS conversion failed: " ++ message) ;;
      log_warning "Please ensure FFmpeg is properly installed with libx264 and HLS support" ;;
      throw message
  end.

(** The command [processHLSStream] builds. *)
Definition hlsCommand (segmentLength : JS.number) (playlistType : string)
    (playlistPath segmentPattern : string) : Command := {|
  cmd_input := inputFile cli;
  cmd_seekInput := None;
  cmd_duration := None;
  cmd_outputOptions :=
    ([Str "-c:v"; Str "libx264";
     Str "-preset"; Str "ultrafast";
     Str "-tune"; Str "fastdecode";
     Str "-c:a"; Str "aac";
     Str "-b:a"; Str "96k";
     Str "-ac"; Str "2";
     Str "-ar"; Str "44100";
     Str "-hls_time"; Number segmentLength;
     Str "-hls_segment_filename"; Str segmentPattern;
     Str "-threads"; Str "auto";
     Str "-f"; Str "hls"]
    ++ (if negb (String.eqb playlistType "") && negb (String.eqb playlistType "none")
        then [Str "-hls_playlist_type"; Str playlistType]
        else []))%list;
  cmd_output := playlistPath
|}.

(** [processHLSStream(totalDuration, outputConfig, metadata)]. *)
Definition processHLSStream (segmentLength : JS.number) (playlistType : string)
    (metadata : Metadata) : M unit :=
  let hlsDir := path_join outputDir "hls" in
  when (negb (hlsDir_exists env)) (emit (Mkdir hlsDir)) ;;
  let playlistPath := path_join hlsDir (filePrefix ++ ".m3u8") in
  let segmentPattern := path_join hlsDir (filePrefix ++ "_%03d.ts") in
  signal <- invoke (ffmpeg_run env)
              (hlsCommand segmentLength playlistType playlistPath segmentPattern) ;;
  match signal with
  | End =>
      log_success "HLS stream created successfully" ;;
      createMasterPlaylist metadata
  | Error message =>
      log_error ("HLS conversion failed: " ++ message) ;;
      log_warning "Trying with even more basic parameters..." ;;
      tryLastResortHLSConversion playlistPath segmentPattern
  end.

(** The name of the file of chunk [i] (0-based). *)
Definition outputFilename (extension : string) (i : nat) : string :=
  filePrefix ++ "_" ++ JS.padStart 3 "0" (JS.string_of_nat (i + 1)) ++ "." ++ extension.

(** The command the loop of [processChunks] builds for chunk [i]. *)
Definition chunkCommand (mode : Mode) (extension : string) (i : nat) : Command :=
  let chunkStartTime := JS.mul (JS.of_nat i) chunkLength in
  let outputPath := path_join outputDir (outputFilename extension i) in
  {| cmd_input := inputFile cli;
     cmd_seekInput := Some chunkStartTime;
     cmd_duration := Some chunkLength;
     cmd_outputOptions :=
       match mode with
       | copy =>
           [Str "-c"; Str "copy";
            Str "-avoid_negative_ts"; Str "make_zero"]
       | _ =>
           [Str "-c:v libx264";
            Str "-preset"; Str qualityPreset;
            Str "-c:a aac";
            Str "-movflags"; Str "+faststart";
            Str "-avoid_negative_ts"; Str "make_zero"]
       end;
     cmd_output := outputPath |}.

(** [for (let i = 0; i < numChunks; i++) { await new Promise(...) }], from
    index [i] on; [fuel] bounds the number of loop tests. *)
Fixpoint chunkLoop (fuel : nat) (numChunks : JS.number) (mode : Mode)
    (extension : string) (i : nat) : M unit :=
  match fuel with
  | O => out_of_fuel
  | S fuel' =>
      if JS.lt (JS.of_nat i) numChunks then
        signal <- invoke (ffmpeg_run env) (chunkCommand mode extension i) ;;
        match signal with
        | End =>
            when showProgress
              (log_success ("Completed: " ++ outputFilename extension i)) ;;
            chunkLoop fuel' numChunks mode extension (S i)
        | Error message =>
            log_error ("Failed to process chunk " ++ JS.string_of_nat (i + 1)
                       ++ ": " ++ message) ;;
            throw message
        end
      else ret tt
  end.

(** [processChunks(totalDuration, outputConfig, metadata)]. *)
Definition processChunks (fuel : nat) (totalDuration : JS.number)
    (outputConfig : OutputConfig) (metadata : Metadata) : M unit :=
  match outputConfig with
  | HlsConfig _ segmentLength playlistType =>
      processHLSStream segmentLength playlistType metadata
  | _ =>
      let numChunks := JS.ceil (JS.div totalDuration chunkLength) in
      chunkLoop fuel numChunks (mode_of outputConfig) (extension_of outputConfig) 0 ;;
      log_success "🎉 Processing complete!"
  end.

(** The [catch] block of [run]. *)
Definition onUnexpectedError (message : string) : M unit :=
  log_error "An unexpected error occurred:" ;;
  emit (ConsoleError message) ;;
  when (JS.includes "ffmpeg" message || JS.includes "ffprobe" message)
    (log_warning "Please ensure FFmpeg is installed and accessible in your system PATH.") ;;
  exit 1.

(** [run()]. *)
Definition run (fuel : nat) : M unit :=
  try_catch
    (validateInput ;;
     outputConfig <-
       (if opt_hls (options cli)
        then ret (HlsConfig "ts"
                    (JS.or_else (JS.parseInt10 (opt_hlsSegment (options cli))) (JS.of_Z 4))
                    (JS.str_or (opt_hlsType (options cli)) "vod"))
        else setupOutput) ;;
     metadata <- getVideoMetadata ;;
     totalDuration <-
       match duration metadata with
       | Some d =>
           if JS.truthy d then ret d
           else (log_error "Could not determine video duration. Please check if the file is a valid video." ;;
                 exit 1)
       | None =>
           log_error "Could not determine video duration. Please check if the file is a valid video." ;;
           exit 1
       end ;;
     log_success "Video analysis complete:" ;;
     createOutputDirectory ;;
     processChunks fuel totalDuration outputConfig metadata)
    onUnexpectedError.

End Driver.

(** The whole process: [run()] from the empty trace. *)
Definition main (fuel : nat) (cli : CommandLine) (env : Environment) : Result unit * Trace :=
  run cli env fuel [].

(** The exit status of the process, when it ends. *)
Definition exit_code (r : Result unit) : option Z :=
  match r with
  | Ok _ => Some 0%Z
  | Exit c => Some c
  | _ => None
  end.

(** ** Observations on traces *)

(** A planned job as the engine is asked for it: the seek offset and the
    requested duration of an invocation. *)
Definition Job : Type := (option JS.number * option JS.number)%type.

Definition job_of (c : Command) : Job := (cmd_seekInput c, cmd_duration c).

Definition planned_jobs (tr : Trace) : list Job := map job_of (invocations tr).

Definition job (start len : Z) : Job := (Some (JS.of_Z start), Some (JS.of_Z len)).

Definition job_eqb (a b : Job) : bool :=
  match a, b with
  | (Some s1, Some d1), (Some s2, Some d2) => JS.strict_eq s1 s2 && JS.strict_eq d1 d2
  | _, _ => false
  end.

Fixpoint jobs_eqb (a b : list Job) : bool :=
  match a, b with
  | [], [] => true
  | x :: a', y :: b' => job_eqb x y && jobs_eqb a' b'
  | _, _ => false
  end.

(** Every element is strictly below the next one. *)
Fixpoint strictly_increasing (l : list JS.number) : bool :=
  match l with
  | a :: (b :: _) as rest => JS.lt a b && strictly_increasing rest
  | _ => true
  end.

Definition startOffsets (tr : Trace) : list JS.number :=
  flat_map (fun c => match cmd_seekInput c with Some s => [s] | None => [] end)
    (invocations tr).

(** The files written, in order. *)
Fixpoint written (tr : Trace) : list (string * Artifact) :=
  match tr with
  | WriteFile path content :: rest => (path, content) :: written rest
  | _ :: rest => written rest
  | [] => []
  end.

Definition is_master_write (e : Event) : bool :=
  match e with WriteFile _ (MasterPlaylist _) => true | _ => false end.

Definition is_player_write (e : Event) : bool :=
  match e with WriteFile _ (PlayerHtml _ _ _) => true | _ => false end.

Definition is_ended (e : Event) : bool :=
  match e with Ended _ => true | _ => false end.

(** The texts of the master playlists written, in order. *)
Fixpoint master_texts (tr : Trace) : list string :=
  match tr with
  | WriteFile _ (MasterPlaylist text) :: rest => text :: master_texts rest
  | _ :: rest => master_texts rest
  | [] => []
  end.

(** The master playlists written, each with the path it is written to. *)
Fixpoint master_files (tr : Trace) : list (string * string) :=
  match tr with
  | WriteFile path (MasterPlaylist text) :: rest => (path, text) :: master_files rest
  | _ :: rest => master_files rest
  | [] => []
  end.

(** Whether a command carries the option [name]. *)
Definition has_option (name : string) (c : Command) : bool :=
  existsb (fun a => match a with Str s => String.eqb s name | Number _ => false end)
    (cmd_outputOptions c).

Fixpoint contains_char (c : ascii) (s : string) : bool :=
  match s with
  | String c' rest => Ascii.eqb c c' || contains_char c rest
  | EmptyString => false
  end.

(** The engine as the driver may use it: idle, one invocation in flight, or
    aborted after a failure.  Starting an invocation is allowed only when
    idle, a completion signal only when one is in flight. *)
Inductive Phase : Type := Idle | InFlight | Aborted.

Definition phase_step (p : Phase) (e : Event) : option Phase :=
  match e, p with
  | Run _, Idle => Some InFlight
  | Run _, _ => None
  | Ended _, InFlight => Some Idle
  | Ended _, _ => None
  | Failed _ _, InFlight => Some Aborted
  | Failed _ _, _ => None
  | _, _ => Some p
  end.

Fixpoint phase_after (p : Phase) (tr : Trace) : option Phase :=
  match tr with
  | [] => Some p
  | e :: rest =>
      match phase_step p e with
      | Some p' => phase_after p' rest
      | None => None
      end
  end.

(** No invocation is started while another is in flight or after one has
    failed. *)
Definition sequential (tr : Trace) : bool :=
  match phase_after Idle tr with
  | Some _ => true
  | None => false
  end.

(** ** The pieces a trace is made of *)

(** The events of chunk [i] when its invocation ends, and when it fails. *)
Definition completedEvents (cli : CommandLine) (mode : Mode) (extension : string)
    (i : nat) : Trace :=
  let c := chunkCommand cli mode extension i in
  ([Run c; Ended c]
   ++ (if showProgress cli
       then [Log success ("Completed: " ++ outputFilename cli extension i)]
       else []))%list.

Definition failedEvents (cli : CommandLine) (mode : Mode) (extension : string)
    (i : nat) (message : string) : Trace :=
  let c := chunkCommand cli mode extension i in
  [Run c; Failed c message;
   Log error ("Failed to process chunk " ++ JS.string_of_nat (i + 1) ++ ": " ++ message)].

Definition processingComplete : Event := Log success "🎉 Processing complete!".

Definition presetWarning (cli : CommandLine) : Trace :=
  if JS.array_includes validPresets (qualityPreset cli) then []
  else [Log warning ("Invalid quality preset: " ++ dquote ++ qualityPreset cli ++ dquote
                     ++ ". Using " ++ dquote ++ "fast" ++ dquote ++ " instead.")].

Definition metadataPath (cli : CommandLine) : string :=
  path_join (outputDir cli) "ielts2go_metadata.json".

Definition outputDirectoryEvents (cli : CommandLine) (env : Environment) : Trace :=
  ((if outputDir_exists env then [] else [Mkdir (outputDir cli)])
   ++ [WriteFile (metadataPath cli)
         (MetadataJson (inputFile cli) (chunkLength cli) (qualityPreset cli) (outputDir cli));
       Log success ("Metadata saved to: " ++ metadataPath cli)])%list.

(** What a run records between a passed validation and [processChunks]. *)
Definition preamble (cli : CommandLine) (env : Environment) : Trace :=
  (presetWarning cli ++ [Log success "Video analysis complete:"]
   ++ outputDirectoryEvents cli env)%list.

(** What the [catch] block of [run] records for the error [message]. *)
Definition unexpectedErrorEvents (message : string) : Trace :=
  ([Log error "An unexpected error occurred:"; ConsoleError message]
   ++ (if JS.includes "ffmpeg" message || JS.includes "ffprobe" message
       then [Log warning "Please ensure FFmpeg is installed and accessible in your system PATH."]
       else []))%list.

(** The paths of an HLS run. *)
Definition hlsDir (cli : CommandLine) : string := path_join (outputDir cli) "hls".
Definition playlistPath (cli : CommandLine) : string :=
  path_join (hlsDir cli) (filePrefix cli ++ ".m3u8").
Definition segmentPattern (cli : CommandLine) : string :=
  path_join (hlsDir cli) (filePrefix cli ++ "_%03d.ts").
Definition masterPlaylistPath (cli : CommandLine) : string :=
  path_join (outputDir cli) (filePrefix cli ++ "_master.m3u8").
Definition playerPath (cli : CommandLine) : string :=
  path_join (outputDir cli) "player.html".

(** The primary and the fallback invocation of an HLS run. *)
Definition primaryCommand (cli : CommandLine) (segmentLength : JS.number)
    (playlistType : string) : Command :=
  hlsCommand cli segmentLength playlistType (playlistPath cli) (segmentPattern cli).

Definition fallbackCommand (cli : CommandLine) : Command :=
  lastResortCommand cli (playlistPath cli) (segmentPattern cli).

(** What [createMasterPlaylist] records. *)
Definition artifactEvents (cli : CommandLine) (md : Metadata) : Trace :=
  [WriteFile (masterPlaylistPath cli) (MasterPlaylist (masterPlaylistContent cli md));
   Log success ("Master playlist created: " ++ masterPlaylistPath cli);
   WriteFile (playerPath cli) (PlayerHtml (inputFile cli) (masterPlaylistPath cli) md);
   Log success ("HTML player created: " ++ playerPath cli);
   WriteFile (path_join (outputDir cli) "PLAYBACK.md")
     (PlaybackReadme (masterPlaylistPath cli) (filePrefix cli))].

Definition primaryEnded (cli : CommandLine) (c : Command) (md : Metadata) : Trace :=
  ([Run c; Ended c; Log success "HLS stream created successfully"]
   ++ artifactEvents cli md)%list.

Definition primaryFailed (c : Command) (message : string) : Trace :=
  [Run c; Failed c message;
   Log error ("HLS conversion failed: " ++ message);
   Log warning "Trying with even more basic parameters..."].

Definition fallbackEnded (cli : CommandLine) : Trace :=
  ([Run (fallbackCommand cli); Ended (fallbackCommand cli);
    Log success "HLS stream created successfully with minimal parameters"]
   ++ artifactEvents cli empty_metadata)%list.

Definition fallbackFailed (cli : CommandLine) (message : string) : Trace :=
  [Run (fallbackCommand cli); Failed (fallbackCommand cli) message;
   Log error ("Last resort HLS conversion failed: " ++ message);
   Log warning "Please ensure FFmpeg is properly installed with libx264 and HLS support"].

(** The outcome of [processHLSStream] by the engine's answers: [n] is the
    number of invocations started before it. *)
Definition hlsOutcome (cli : CommandLine) (env : Environment) (n : nat)
    (segmentLength : JS.number) (playlistType : string) (md : Metadata)
  : Result unit * Trace :=
  let primary := primaryCommand cli segmentLength playlistType in
  let made := if hlsDir_exists env then [] else [Mkdir (hlsDir cli)] in
  match ffmpeg_run env n primary with
  | End => (Ok tt, (made ++ primaryEnded cli primary md)%list)
  | Error m1 =>
      match ffmpeg_run env (S n) (fallbackCommand cli) with
      | End => (Ok tt, (made ++ primaryFailed primary m1 ++ fallbackEnded cli)%list)
      | Error m2 =>
          (Throw m2, (made ++ primaryFailed primary m1 ++ fallbackFailed cli m2)%list)
      end
  end.

(** The resolution [getVideoMetadata] reports for the streams probed. *)
Definition probedResolution (streams : list Stream) : string :=
  match find (fun s => String.eqb (codec_type s) "video") streams with
  | Some v => JS.string_of_Z (width v) ++ "x" ++ JS.string_of_Z (height v)
  | None => "Unknown"
  end.

(** ** What the specification says *)

(** Modelled from the spec: the external engine's end-of-stream clipping
    (sections 4.2 and 8).  Asked for [requested] seconds from [start] of a
    source [total] seconds long, the engine emits what the source still
    holds, at most [requested]. *)
Definition endOfStreamClip (total start requested : Q) : Q :=
  Qmin requested (Qmax 0 (total - start)).

(** The section 6 template of the specification: the four lines of the
    master playlist for a prefix and a resolution. *)
Definition specMasterLines (prefix resolution : string) : list string :=
  ["#EXTM3U";
   "#EXT-X-VERSION:3";
   "#EXT-X-STREAM-INF:BANDWIDTH=2800000,RESOLUTION=" ++ resolution;
   "hls/" ++ prefix ++ ".m3u8"].

(** Lines as the text of a file: each one ended by a line feed. *)
Fixpoint unlines (lines : list string) : string :=
  match lines with
  | [] => ""
  | l :: rest => l ++ newline ++ unlines rest
  end.


(** ** A concrete run *)

Definition lesson_options (length quality : string) : Options := {|
  opt_directory := "out";
  opt_length := length;
  opt_prefix := "lesson";
  opt_quality := quality;
  opt_hls := false;
  opt_hlsSegment := "4";
  opt_hlsType := "vod";
  opt_progress := true
|}.

Definition lesson_cli (length quality : string) : CommandLine :=
  {| inputFile := "video.mp4"; options := lesson_options length quality |}.

Definition lesson_streams : list Stream :=
  [ {| codec_type := "video"; codec_name := Some "h264"; width := 1920; height := 1080 |};
    {| codec_type := "audio"; codec_name := Some "aac"; width := 0; height := 0 |} ].

Definition lesson_format (seconds : Z) : Format :=
  {| format_duration := Some (JS.of_Z seconds); bit_rate := None |}.

(** A source of [seconds] seconds, answered for mode [m], with the engine
    [engine]. *)
Definition lesson_env (seconds : Z) (m : Mode) (engine : nat -> Command -> Completion)
  : Environment := {|
  input_exists := true;
  outputDir_exists := false;
  hlsDir_exists := false;
  input_extname := ".mp4";
  answers := {| ans_mode := m; ans_extension := mp4; ans_customExtension := "";
                ans_segmentLength := JS.of_Z 4; ans_playlistType := "vod" |};
  ffprobe := ProbeData (lesson_format seconds) lesson_streams;
  ffmpeg_run := engine
|}.

Definition always_end : nat -> Command -> Completion := fun _ _ => End.

(** The engine that fails its invocation number [k] and completes the others. *)
Definition fails_at (k : nat) (message : string) : nat -> Command -> Completion :=
  fun n _ => if (n =? k)%nat then Error message else End.

(** ** Progress display *)

Module Progress.

(** [Math.floor]. *)
Definition floor (a : JS.number) : JS.number :=
  match a with
  | JS.Num x => JS.of_Z (Qfloor x)
  | other => other
  end.

(** [Math.round]: the nearest integer, a tie going up. *)
Definition round (a : JS.number) : JS.number :=
  match a with
  | JS.Num x => JS.of_Z (Qfloor (x + (1 # 2)))
  | other => other
  end.

(** [a - b]. *)
Definition sub (a b : JS.number) : JS.number :=
  match a, b with
  | JS.NaN, _ | _, JS.NaN => JS.NaN
  | JS.Num x, JS.Num y => JS.Num (x - y)
  | JS.PosInf, JS.PosInf | JS.NegInf, JS.NegInf => JS.NaN
  | JS.PosInf, _ | _, JS.NegInf => JS.PosInf
  | _, _ => JS.NegInf
  end.

(** The count of [String.prototype.repeat] as an integer: [NaN] counts as
    zero, a fraction is cut toward zero; [None] for an infinite count. *)
Definition repeat_count (count : JS.number) : option Z :=
  match count with
  | JS.Num x => Some (if JS.Qlt_bool x 0 then Qceiling x else Qfloor x)
  | JS.NaN => Some 0%Z
  | _ => None
  end.

(** [s.repeat(count)]; [None] is the [RangeError] thrown for a negative or
    infinite count. *)
Definition repeat (s : string) (count : JS.number) : option string :=
  match repeat_count count with
  | Some n => if (n <? 0)%Z then None else Some (JS.repeat_string s (Z.to_nat n))
  | None => None
  end.

Definition filled : string := "█".
Definition blank : string := "░".

(** The bar that [log.step] and the progress handler of [processHLSStream]
    build for a percentage: one cell per five percent out of twenty. *)
Definition progressBar (percentage : JS.number) : option string :=
  let cells := floor (JS.div percentage (JS.of_Z 5)) in
  match repeat filled cells, repeat blank (sub (JS.of_Z 20) cells) with
  | Some shown, Some rest => Some (shown ++ rest)
  | _, _ => None
  end.

(** The percentage [log.step(current, total, message)] shows. *)
Definition stepPercentage (current total : JS.number) : JS.number :=
  round (JS.mul (JS.div current total) (JS.of_Z 100)).

(** The bar of [log.step(current, total, message)]. *)
Definition stepBar (current total : JS.number) : option string :=
  progressBar (stepPercentage current total).

(** What the [progress] handler of [processHLSStream] does with
    [progress.percent]: nothing for a falsy percent, otherwise the bar of
    the rounded percent is printed, unless building it throws. *)
Inductive Printed : Type :=
| Nothing
| Bar (bar : string)
| RangeError.

Definition onProgress (percent : JS.number) : Printed :=
  if JS.truthy percent then
    match progressBar (round percent) with
    | Some bar => Bar bar
    | None => RangeError
    end
  else Nothing.

End Progress.

(** ** The custom extension prompt of [setupOutput] *)

Module CustomExtension.

(** [input.replace('.', '')]: the first dot is removed. *)
Fixpoint replace_first_dot (s : string) : string :=
  match s with
  | String c rest => if Ascii.eqb c "." then rest else String c (replace_first_dot rest)
  | EmptyString => EmptyString
  end.

(** [s.trimEnd()], on the white space of [JS.is_space]. *)
Fixpoint trimEnd (s : string) : string :=
  match s with
  | String c rest =>
      match trimEnd rest with
      | EmptyString => if JS.is_space c then EmptyString else String c EmptyString
      | kept => String c kept
      end
  | EmptyString => EmptyString
  end.

(** [s.trim()]. *)
Definition trim (s : string) : string := trimEnd (JS.skip_spaces s).

(** The [filter] of the prompt: what [customFormat.extension] is for the
    text typed. *)
Definition filter (input : string) : string :=
  trim (JS.toLowerCase (replace_first_dot input)).

(** The [validate] of the prompt: [true], or [false] for its message. *)
Definition validate (input : string) : bool :=
  negb (String.eqb input "" || String.eqb (trim input) "").

Fixpoint count_dots (s : string) : nat :=
  match s with
  | String c rest => ((if Ascii.eqb c "." then 1 else 0) + count_dots rest)%nat
  | EmptyString => 0%nat
  end.

End CustomExtension.

(** ** Further observations and concrete inputs *)

Definition noDurationError : Event :=
  Log error "Could not determine video duration. Please check if the file is a valid video.".

Definition with_probe (env : Environment) (answer : ProbeAnswer) : Environment := {|
  input_exists := input_exists env;
  outputDir_exists := outputDir_exists env;
  hlsDir_exists := hlsDir_exists env;
  input_extname := input_extname env;
  answers := answers env;
  ffprobe := answer;
  ffmpeg_run := ffmpeg_run env
|}.

Definition without_input (env : Environment) : Environment := {|
  input_exists := false;
  outputDir_exists := outputDir_exists env;
  hlsDir_exists := hlsDir_exists env;
  input_extname := input_extname env;
  answers := answers env;
  ffprobe := ffprobe env;
  ffmpeg_run := ffmpeg_run env
|}.

(** A source with a sound track only. *)
Definition audio_streams : list Stream :=
  [ {| codec_type := "audio"; codec_name := Some "aac"; width := 0; height := 0 |} ].

Definition is_mkdir (e : Event) : bool :=
  match e with Mkdir _ => true | _ => false end.


Definition hls_flags (segment type : string) : Options := {|
  opt_directory := "out";
  opt_length := "60";
  opt_prefix := "lesson";
  opt_quality := "fast";
  opt_hls := true;
  opt_hlsSegment := segment;
  opt_hlsType := type;
  opt_progress := true
|}.

Definition hls_cli (segment type : string) : CommandLine :=
  {| inputFile := "video.mp4"; options := hls_flags segment type |}.



(** ** Small checks of the JavaScript layer *)

Example parseInt_60 : JS.parseInt10 "60" = JS.of_Z 60.
Proof. reflexivity. Qed.

Example parseInt_abc : JS.parseInt10 "abc" = JS.NaN.
Proof. reflexivity. Qed.

Example parseInt_neg : JS.parseInt10 " -12px" = JS.of_Z (-12).
Proof. reflexivity. Qed.

Example pad_7 : JS.padStart 3 "0" (JS.string_of_nat 7) = "007".
Proof. reflexivity. Qed.

Example lt_nan : JS.lt (JS.of_nat 0) JS.NaN = false.
Proof. reflexivity. Qed.

Example default_chunk_length :
  chunkLength {| inputFile := "video.mp4"; options := default_options |} = JS.of_Z 60.
Proof. reflexivity. Qed.

Example ceil_125_60 : JS.ceil (JS.div (JS.of_Z 125) (JS.of_Z 60)) = JS.of_Z 3.
Proof. reflexivity. Qed.

Local Close Scope string_scope.

(** ** Facts about the JavaScript layer *)

Lemma Qlt_bool_inject (a b : Z) : JS.Qlt_bool (inject_Z a) (inject_Z b) = (a <? b)%Z.
Proof.
  unfold JS.Qlt_bool, Qle_bool, inject_Z; simpl.
  rewrite !Z.mul_1_r. rewrite Z.ltb_antisym. reflexivity.
Qed.

Lemma lt_of_nat_of_Z (i : nat) (n : Z) :
  JS.lt (JS.of_nat i) (JS.of_Z n) = (Z.of_nat i <? n)%Z.
Proof. unfold JS.of_nat, JS.of_Z, JS.lt. apply Qlt_bool_inject. Qed.

Lemma lt_of_Z (a b : Z) : JS.lt (JS.of_Z a) (JS.of_Z b) = (a <? b)%Z.
Proof. unfold JS.of_Z, JS.lt. apply Qlt_bool_inject. Qed.

Lemma mul_of_nat_of_Z (i : nat) (c : Z) :
  JS.mul (JS.of_nat i) (JS.of_Z c) = JS.of_Z (Z.of_nat i * c).
Proof. reflexivity. Qed.

Lemma Qis_zero_inject (c : Z) : JS.Qis_zero (inject_Z c) = (c =? 0)%Z.
Proof.
  unfold JS.Qis_zero, Qeq_bool, inject_Z; simpl. rewrite Z.mul_1_r.
  reflexivity.
Qed.

Lemma ceil_div_of_Z (d : Q) (c : Z) :
  c <> 0%Z ->
  JS.ceil (JS.div (JS.Num d) (JS.of_Z c)) = JS.of_Z (Qceiling (d / inject_Z c)).
Proof.
  intros Hc. unfold JS.div, JS.of_Z at 1. rewrite Qis_zero_inject.
  destruct (Z.eqb_spec c 0); [contradiction | reflexivity].
Qed.

(** [parseInt] yields an integer or [NaN], never a fraction or an infinity. *)
Lemma parseInt10_integer (s : string) :
  JS.parseInt10 s = JS.NaN \/ exists z, JS.parseInt10 s = JS.of_Z z.
Proof.
  unfold JS.parseInt10.
  destruct (match JS.skip_spaces s with
            | String "-" rest => (true, rest)
            | String "+" rest => (false, rest)
            | _ => (false, JS.skip_spaces s)
            end) as [negative digits].
  destruct (JS.digits_prefix digits None) as [v|]; [right; eauto | left; reflexivity].
Qed.

(** A positive chunk length is a positive integer. *)
Lemma chunkLength_positive_integer (cli : CommandLine) :
  JS.lt (JS.of_Z 0) (chunkLength cli) = true ->
  exists c, chunkLength cli = JS.of_Z c /\ (0 < c)%Z.
Proof.
  unfold chunkLength. intros Hpos.
  destruct (parseInt10_integer (opt_length (options cli))) as [Hnan | (c & Hc)].
  - rewrite Hnan in Hpos. discriminate.
  - exists c. split; [exact Hc|]. rewrite Hc, lt_of_Z in Hpos.
    apply Z.ltb_lt. exact Hpos.
Qed.

(** The number of chunks for a positive duration and chunk length: the
    integer [n] with [(n - 1) * c < d <= n * c]. *)
Lemma chunk_count_bounds (d : Q) (c : Z) :
  (0 < c)%Z -> 0 < d ->
  let n := Qceiling (d / inject_Z c) in
  (1 <= n)%Z /\ inject_Z ((n - 1) * c) < d /\ d <= inject_Z (n * c).
Proof.
  intros Hc Hd n.
  assert (Hcq : 0 < inject_Z c) by (change 0 with (inject_Z 0); rewrite <- Zlt_Qlt; exact Hc).
  assert (Hne : ~ inject_Z c == 0) by (intro E; rewrite E in Hcq; discriminate).
  pose proof (Qle_ceiling (d / inject_Z c)) as Hup.
  pose proof (Qceiling_lt (d / inject_Z c)) as Hlo.
  fold n in Hup, Hlo.
  assert (Hlo' : inject_Z ((n - 1) * c) < d).
  { rewrite inject_Z_mult.
    apply (Qmult_lt_compat_r _ _ (inject_Z c)) in Hlo; [|exact Hcq].
    unfold Qdiv in Hlo. rewrite <- Qmult_assoc in Hlo.
    rewrite (Qmult_comm (/ inject_Z c)) in Hlo.
    rewrite Qmult_inv_r in Hlo by exact Hne.
    rewrite Qmult_1_r in Hlo. exact Hlo. }
  assert (Hup' : d <= inject_Z (n * c)).
  { rewrite inject_Z_mult.
    apply (Qmult_le_compat_r _ _ (inject_Z c)) in Hup; [|apply Qlt_le_weak; exact Hcq].
    unfold Qdiv in Hup. rewrite <- Qmult_assoc in Hup.
    rewrite (Qmult_comm (/ inject_Z c)) in Hup.
    rewrite Qmult_inv_r in Hup by exact Hne.
    rewrite Qmult_1_r in Hup. exact Hup. }
  split; [|split; assumption].
  assert (0 < inject_Z (n * c)) by (apply (Qlt_le_trans _ d); assumption).
  change 0 with (inject_Z 0) in H. rewrite <- Zlt_Qlt in H. nia.
Qed.

(** ** Facts about traces *)

Lemma invocations_app (tr1 tr2 : Trace) :
  invocations (tr1 ++ tr2) = invocations tr1 ++ invocations tr2.
Proof.
  induction tr1 as [|e tr1 IH]; [reflexivity|].
  destruct e; simpl; rewrite IH; reflexivity.
Qed.

Lemma phase_after_app (p : Phase) (tr1 tr2 : Trace) :
  phase_after p (tr1 ++ tr2) =
  match phase_after p tr1 with
  | Some p' => phase_after p' tr2
  | None => None
  end.
Proof.
  revert p; induction tr1 as [|e tr1 IH]; intros p; [reflexivity|].
  simpl. destruct (phase_step p e); [apply IH | reflexivity].
Qed.

Section ChunkLoop.

Variable cli : CommandLine.
Variable env : Environment.
Variable mode : Mode.
Variable extension : string.

Let command := chunkCommand cli mode extension.
Let completed := completedEvents cli mode extension.
Let failed := failedEvents cli mode extension.

Lemma invocations_completed (i : nat) : invocations (completed i) = [command i].
Proof.
  unfold completed, completedEvents. destruct (showProgress cli); reflexivity.
Qed.

Lemma invocations_completed_range (i k : nat) :
  invocations (flat_map completed (seq i k)) = map command (seq i k).
Proof.
  revert i; induction k as [|k IH]; intros i; [reflexivity|].
  cbn [seq flat_map map]. rewrite invocations_app, invocations_completed, IH.
  reflexivity.
Qed.

Lemma phase_completed (i : nat) : phase_after Idle (completed i) = Some Idle.
Proof.
  unfold completed, completedEvents. destruct (showProgress cli); reflexivity.
Qed.

(** One turn of the loop. *)
Lemma chunkLoop_step (fuel : nat) (numChunks : JS.number) (i : nat) (tr : Trace) :
  chunkLoop cli env (S fuel) numChunks mode extension i tr =
  if JS.lt (JS.of_nat i) numChunks then
    match ffmpeg_run env (List.length (invocations tr)) (command i) with
    | End => chunkLoop cli env fuel numChunks mode extension (S i) (tr ++ completed i)
    | Error message => (Throw message, tr ++ failed i message)
    end
  else (Ok tt, tr).
Proof.
  cbn [chunkLoop]. destruct (JS.lt (JS.of_nat i) numChunks); [|reflexivity].
  unfold bind, invoke. fold (command i).
  destruct (ffmpeg_run env (List.length (invocations tr)) (command i)) as [|message].
  - unfold completed, completedEvents, when, log_success, emit, ret.
    fold (command i).
    destruct (showProgress cli); rewrite <- ?app_assoc; try rewrite app_nil_r; reflexivity.
  - unfold failed, failedEvents, log_error, emit, throw. fold (command i).
    rewrite <- app_assoc. reflexivity.
Qed.

(** While the engine completes every chunk, the loop runs through the
    remaining indices and stops. *)
Lemma chunkLoop_completes (k : nat) :
  forall (i fuel : nat) (tr : Trace) (n : Z),
    k = (Z.to_nat n - i)%nat ->
    (k < fuel)%nat ->
    (forall j, (j < k)%nat ->
       ffmpeg_run env (List.length (invocations tr) + j) (command (i + j)) = End) ->
    chunkLoop cli env fuel (JS.of_Z n) mode extension i tr
    = (Ok tt, tr ++ flat_map completed (seq i k)).
Proof.
  induction k as [|k IH]; intros i fuel tr n Hk Hfuel Hrun;
    (destruct fuel as [|fuel]; [lia|]); rewrite chunkLoop_step, lt_of_nat_of_Z.
  - replace (Z.of_nat i <? n)%Z with false by (symmetry; apply Z.ltb_ge; lia).
    cbn [seq flat_map]. rewrite app_nil_r. reflexivity.
  - replace (Z.of_nat i <? n)%Z with true by (symmetry; apply Z.ltb_lt; lia).
    pose proof (Hrun 0%nat ltac:(lia)) as H0.
    rewrite Nat.add_0_r in H0. rewrite Nat.add_0_r in H0. rewrite H0.
    rewrite (IH (S i) fuel (tr ++ completed i) n); [| lia | lia |].
    + cbn [seq flat_map]. rewrite app_assoc. reflexivity.
    + intros j Hj. rewrite invocations_app, invocations_completed, List.length_app.
      cbn [List.length]. replace (List.length (invocations tr) + 1 + j)%nat
        with (List.length (invocations tr) + S j)%nat by lia.
      replace (S i + j)%nat with (i + S j)%nat by lia. apply Hrun. lia.
Qed.

(** When chunk [k] is the first whose invocation fails, the loop stops
    there: the chunks before it completed, nothing follows the failure. *)
Lemma chunkLoop_fails (k : nat) :
  forall (i fuel : nat) (tr : Trace) (n : Z) (message : string),
    (Z.of_nat (i + k) < n)%Z ->
    (k < fuel)%nat ->
    (forall j, (j < k)%nat ->
       ffmpeg_run env (List.length (invocations tr) + j) (command (i + j)) = End) ->
    ffmpeg_run env (List.length (invocations tr) + k) (command (i + k)) = Error message ->
    chunkLoop cli env fuel (JS.of_Z n) mode extension i tr
    = (Throw message, tr ++ flat_map completed (seq i k) ++ failed (i + k) message).
Proof.
  induction k as [|k IH]; intros i fuel tr n message Hn Hfuel Hrun Hfail;
    (destruct fuel as [|fuel]; [lia|]); rewrite chunkLoop_step, lt_of_nat_of_Z;
    replace (Z.of_nat i <? n)%Z with true by (symmetry; apply Z.ltb_lt; lia).
  - rewrite !Nat.add_0_r in Hfail. rewrite Hfail. rewrite Nat.add_0_r. reflexivity.
  - pose proof (Hrun 0%nat ltac:(lia)) as H0.
    rewrite !Nat.add_0_r in H0. rewrite H0.
    rewrite (IH (S i) fuel (tr ++ completed i) n message); [| lia | lia | |].
    + cbn [seq flat_map]. rewrite <- !app_assoc.
      replace (S i + k)%nat with (i + S k)%nat by lia. reflexivity.
    + intros j Hj. rewrite invocations_app, invocations_completed, List.length_app.
      cbn [List.length]. replace (List.length (invocations tr) + 1 + j)%nat
        with (List.length (invocations tr) + S j)%nat by lia.
      replace (S i + j)%nat with (i + S j)%nat by lia. apply Hrun. lia.
    + rewrite invocations_app, invocations_completed, List.length_app. cbn [List.length].
      replace (List.length (invocations tr) + 1 + k)%nat
        with (List.length (invocations tr) + S k)%nat by lia.
      replace (S i + k)%nat with (i + S k)%nat by lia. exact Hfail.
Qed.

(** Whatever the engine answers and however long the loop runs, it leaves
    the engine idle, or aborted exactly when it throws; it never exits. *)
Lemma chunkLoop_phase (fuel : nat) :
  forall (numChunks : JS.number) (i : nat) (tr : Trace),
    phase_after Idle tr = Some Idle ->
    match chunkLoop cli env fuel numChunks mode extension i tr with
    | (Ok _, tr') | (OutOfFuel, tr') => phase_after Idle tr' = Some Idle
    | (Throw _, tr') => phase_after Idle tr' = Some Aborted
    | (Exit _, _) => False
    end.
Proof.
  induction fuel as [|fuel IH]; intros numChunks i tr Hidle; [exact Hidle|].
  rewrite chunkLoop_step. destruct (JS.lt (JS.of_nat i) numChunks); [|exact Hidle].
  destruct (ffmpeg_run env (List.length (invocations tr)) (command i)) as [|message].
  - apply IH. rewrite phase_after_app, Hidle. apply phase_completed.
  - rewrite phase_after_app, Hidle. reflexivity.
Qed.

End ChunkLoop.

Section StandardMode.

Variable cli : CommandLine.
Variable env : Environment.

(** In a standard mode [processChunks] is the loop followed by the final
    success line. *)
Lemma processChunks_standard (fuel : nat) (d : JS.number) (cfg : OutputConfig)
    (md : Metadata) (tr : Trace) :
  mode_of cfg <> hls ->
  processChunks cli env fuel d cfg md tr =
  match chunkLoop cli env fuel (JS.ceil (JS.div d (chunkLength cli)))
          (mode_of cfg) (extension_of cfg) 0 tr with
  | (Ok _, tr') => (Ok tt, tr' ++ [processingComplete])
  | (Throw message, tr') => (Throw message, tr')
  | (Exit code, tr') => (Exit code, tr')
  | (OutOfFuel, tr') => (OutOfFuel, tr')
  end.
Proof.
  intros Hmode. destruct cfg as [e|e|e s p]; [| |contradiction Hmode; reflexivity];
    unfold processChunks, bind;
    destruct (chunkLoop _ _ _ _ _ _ _ _) as [[[]| | |] tr']; reflexivity.
Qed.

(** With a positive duration and chunk length and an engine that completes
    every invocation, the standard path runs chunk 0 up to the last one. *)
Lemma processChunks_completes (fuel : nat) (cfg : OutputConfig) (md : Metadata)
    (tr0 : Trace) (d : Q) (c : Z) :
  mode_of cfg <> hls ->
  chunkLength cli = JS.of_Z c -> (0 < c)%Z ->
  (forall n cmd, ffmpeg_run env n cmd = End) ->
  (Z.to_nat (Qceiling (d / inject_Z c)) < fuel)%nat ->
  processChunks cli env fuel (JS.Num d) cfg md tr0 =
  (Ok tt,
   tr0 ++ flat_map (completedEvents cli (mode_of cfg) (extension_of cfg))
            (seq 0 (Z.to_nat (Qceiling (d / inject_Z c))))
       ++ [processingComplete]).
Proof.
  intros Hmode Hc Hpos Hengine Hfuel.
  rewrite processChunks_standard by exact Hmode.
  rewrite Hc, ceil_div_of_Z by lia.
  rewrite (chunkLoop_completes cli env _ _ (Z.to_nat (Qceiling (d / inject_Z c))));
    [rewrite <- app_assoc; reflexivity | lia | exact Hfuel | intros; apply Hengine].
Qed.

(** The job of chunk [i]: it starts at [i * c] and asks for [c] seconds. *)
Lemma job_of_chunkCommand (mode : Mode) (extension : string) (c : Z) (i : nat) :
  chunkLength cli = JS.of_Z c ->
  job_of (chunkCommand cli mode extension i) = job (Z.of_nat i * c) c.
Proof.
  intros Hc. unfold job_of, chunkCommand, job. cbn [cmd_seekInput cmd_duration].
  rewrite Hc. reflexivity.
Qed.

Lemma planned_jobs_completed (mode : Mode) (extension : string) (c : Z) (k : nat) :
  chunkLength cli = JS.of_Z c ->
  planned_jobs (flat_map (completedEvents cli mode extension) (seq 0 k)
                ++ [processingComplete])
  = map (fun i => job (Z.of_nat i * c) c) (seq 0 k).
Proof.
  intros Hc. unfold planned_jobs.
  rewrite invocations_app, invocations_completed_range. cbn [invocations].
  rewrite app_nil_r, map_map. apply map_ext. intros i.
  apply job_of_chunkCommand. exact Hc.
Qed.

Lemma startOffsets_completed (mode : Mode) (extension : string) (c : Z) (k : nat) :
  chunkLength cli = JS.of_Z c ->
  startOffsets (flat_map (completedEvents cli mode extension) (seq 0 k)
                ++ [processingComplete])
  = map (fun i => JS.of_Z (Z.of_nat i * c)) (seq 0 k).
Proof.
  intros Hc. unfold startOffsets.
  rewrite invocations_app, invocations_completed_range. cbn [invocations].
  rewrite app_nil_r. generalize 0%nat.
  induction k as [|k IH]; intros a; [reflexivity|].
  cbn [seq map flat_map]. rewrite IH.
  unfold chunkCommand at 1. cbn [cmd_seekInput]. rewrite Hc. reflexivity.
Qed.

End StandardMode.

Lemma multiples_increasing (c : Z) (k : nat) :
  (0 < c)%Z ->
  forall a, strictly_increasing (map (fun i => JS.of_Z (Z.of_nat i * c)) (seq a k)) = true.
Proof.
  intros Hc. induction k as [|k IH]; intros a; [reflexivity|].
  specialize (IH (S a)). destruct k as [|k]; [reflexivity|].
  cbn [seq map] in IH |- *. cbn [strictly_increasing].
  rewrite lt_of_Z. cbn [seq map strictly_increasing] in IH. rewrite IH.
  replace (Z.of_nat a * c <? Z.of_nat (S a) * c)%Z with true; [reflexivity|].
  symmetry. apply Z.ltb_lt. nia.
Qed.

(** ** The chunk plan of the standard path *)

(** C1 (as amended): for a positive duration [d] and chunk length [c], with
    an engine that completes every invocation, the standard path starts
    exactly [ceil (d / c)] jobs; job [i] seeks to [i * c] and asks for [c]
    seconds, the last one included; the start offsets increase strictly.
    For [d = 125], [c = 60] the jobs are (0,60), (60,60), (120,60); for
    [d = 60], [c = 60] the only job is (0,60). *)
Theorem C1_chunk_plan (cli : CommandLine) (env : Environment) (fuel : nat)
    (cfg : OutputConfig) (md : Metadata) (tr0 : Trace) (d : Q) (c : Z) :
  mode_of cfg <> hls ->
  chunkLength cli = JS.of_Z c -> (0 < c)%Z -> 0 < d ->
  (forall n cmd, ffmpeg_run env n cmd = End) ->
  (Z.to_nat (Qceiling (d / inject_Z c)) < fuel)%nat ->
  exists tr,
    processChunks cli env fuel (JS.Num d) cfg md tr0 = (Ok tt, tr0 ++ tr) /\
    planned_jobs tr
    = map (fun i => job (Z.of_nat i * c) c)
        (seq 0 (Z.to_nat (Qceiling (d / inject_Z c)))) /\
    List.length (planned_jobs tr) = Z.to_nat (Qceiling (d / inject_Z c)) /\
    strictly_increasing (startOffsets tr) = true /\
    (d == 125 -> c = 60%Z -> planned_jobs tr = [job 0 60; job 60 60; job 120 60]) /\
    (d == 60 -> c = 60%Z -> planned_jobs tr = [job 0 60]).
Proof.
  intros Hmode Hc Hpos Hd Hengine Hfuel.
  eexists. split; [apply processChunks_completes; eassumption|].
  rewrite (planned_jobs_completed cli _ _ c) by exact Hc.
  rewrite (startOffsets_completed cli _ _ c) by exact Hc.
  split; [reflexivity|]. split; [rewrite length_map, length_seq; reflexivity|].
  split; [apply multiples_increasing; exact Hpos|].
  split; intros Hd' ->; rewrite Hd'; reflexivity.
Qed.

(** The plan of a 125-second source cut every 60 seconds. *)
Lemma C1_chunk_plan_witness :
  exists tr,
    processChunks (lesson_cli "60" "fast") (lesson_env 125 copy always_end) 4
      (JS.Num 125) (CopyConfig "mp4") empty_metadata [] = (Ok tt, [] ++ tr) /\
    planned_jobs tr = [job 0 60; job 60 60; job 120 60].
Proof.
  destruct (C1_chunk_plan (lesson_cli "60" "fast") (lesson_env 125 copy always_end) 4
              (CopyConfig "mp4") empty_metadata [] 125 60)
    as (tr & Hrun & _ & _ & _ & H125 & _).
  - discriminate.
  - reflexivity.
  - lia.
  - reflexivity.
  - reflexivity.
  - vm_compute. lia.
  - exists tr. split; [exact Hrun | apply H125; reflexivity].
Defined.

(** C1 as stated fails on the third job of the 125 / 60 scenario: the driver
    asks for the full chunk length, (120,60), not (120,5). *)
Lemma C1_counterexample :
  planned_jobs
    (snd (processChunks (lesson_cli "60" "fast") (lesson_env 125 copy always_end) 4
            (JS.Num 125) (CopyConfig "mp4") empty_metadata []))
  = [job 0 60; job 60 60; job 120 60]
  /\ jobs_eqb
       (planned_jobs
          (snd (processChunks (lesson_cli "60" "fast") (lesson_env 125 copy always_end) 4
                  (JS.Num 125) (CopyConfig "mp4") empty_metadata [])))
       [job 0 60; job 60 60; job 120 5] = false.
Proof. split; vm_compute; reflexivity. Qed.

(** What is left of the source at the last start offset: more than nothing,
    at most one chunk length. *)
Lemma last_chunk_remainder (d : Q) (c : Z) :
  (0 < c)%Z -> 0 < d ->
  let start := ((Qceiling (d / inject_Z c) - 1) * c)%Z in
  0 < d - inject_Z start /\ d - inject_Z start <= inject_Z c.
Proof.
  intros Hc Hd start.
  destruct (chunk_count_bounds d c Hc Hd) as (_ & Hlo & Hup).
  fold start in Hlo.
  replace (Qceiling (d / inject_Z c) * c)%Z with (start + c)%Z in Hup
    by (unfold start; ring).
  rewrite inject_Z_plus in Hup. split; lra.
Qed.

Lemma endOfStreamClip_inside (total start requested : Q) :
  0 < total - start -> total - start <= requested ->
  endOfStreamClip total start requested == total - start.
Proof.
  intros Hpos Hle. unfold endOfStreamClip.
  rewrite (Q.max_r 0 (total - start)) by (apply Qlt_le_weak; exact Hpos).
  apply Q.min_r. exact Hle.
Qed.

(** C6: for a positive duration [d] and chunk length [c], the last job the
    standard path starts seeks to [(count - 1) * c] and asks for [c] seconds;
    clipped at the end of the stream, what the engine emits for it lasts
    [d - (count - 1) * c] seconds, which is positive and at most [c]. *)
Theorem C6_last_chunk_effective_duration (cli : CommandLine) (env : Environment)
    (fuel : nat) (cfg : OutputConfig) (md : Metadata) (tr0 : Trace) (d : Q) (c : Z) :
  mode_of cfg <> hls ->
  chunkLength cli = JS.of_Z c -> (0 < c)%Z -> 0 < d ->
  (forall n cmd, ffmpeg_run env n cmd = End) ->
  (Z.to_nat (Qceiling (d / inject_Z c)) < fuel)%nat ->
  let count := Qceiling (d / inject_Z c) in
  let start := ((count - 1) * c)%Z in
  exists tr,
    processChunks cli env fuel (JS.Num d) cfg md tr0 = (Ok tt, tr0 ++ tr) /\
    last (planned_jobs tr) (None, None) = job start c /\
    endOfStreamClip d (inject_Z start) (inject_Z c) == d - inject_Z start /\
    0 < endOfStreamClip d (inject_Z start) (inject_Z c) /\
    endOfStreamClip d (inject_Z start) (inject_Z c) <= inject_Z c.
Proof.
  intros Hmode Hc Hpos Hd Hengine Hfuel count start.
  destruct (chunk_count_bounds d c Hpos Hd) as (Hone & _ & _). fold count in Hone.
  destruct (last_chunk_remainder d c Hpos Hd) as (Hlo & Hup). fold count start in Hlo, Hup.
  pose proof (endOfStreamClip_inside d (inject_Z start) (inject_Z c) Hlo Hup) as Hclip.
  eexists. split; [apply processChunks_completes; eassumption|].
  rewrite (planned_jobs_completed cli _ _ c) by exact Hc. fold count.
  split; [| split; [exact Hclip | split; rewrite Hclip; assumption]].
  destruct (Z.to_nat count) as [|m] eqn:Hm; [lia|].
  rewrite seq_S, map_app. cbn [map]. rewrite last_last. cbn [Nat.add]. unfold start.
  replace (Z.of_nat m) with (count - 1)%Z by lia. reflexivity.
Qed.

(** The last chunk of a 125-second source cut every 60 seconds lasts 5 seconds. *)
Lemma C6_last_chunk_effective_duration_witness :
  exists tr,
    processChunks (lesson_cli "60" "fast") (lesson_env 125 copy always_end) 4
      (JS.Num 125) (CopyConfig "mp4") empty_metadata [] = (Ok tt, [] ++ tr) /\
    last (planned_jobs tr) (None, None) = job 120 60 /\
    endOfStreamClip 125 120 60 == 5.
Proof.
  destruct (C6_last_chunk_effective_duration (lesson_cli "60" "fast")
              (lesson_env 125 copy always_end) 4 (CopyConfig "mp4") empty_metadata
              [] 125 60)
    as (tr & Hrun & Hlast & Hclip & _).
  - discriminate.
  - reflexivity.
  - lia.
  - reflexivity.
  - reflexivity.
  - vm_compute. lia.
  - exists tr. split; [exact Hrun | split; [exact Hlast | reflexivity]].
Defined.

(** C7: in a standard mode no invocation is ever started while another is in
    flight or after one has failed, whatever the engine answers; and when
    chunk [k] is the first whose invocation fails, the run throws that
    error at once: the jobs started are those of chunks [0 .. k], each once,
    the failed one is not started again and none of the later ones is. *)
Theorem C7_sequential_abort_on_failure (cli : CommandLine) (env : Environment)
    (fuel : nat) (cfg : OutputConfig) (md : Metadata) (d : JS.number) (tr0 : Trace) :
  mode_of cfg <> hls ->
  phase_after Idle tr0 = Some Idle ->
  sequential (snd (processChunks cli env fuel d cfg md tr0)) = true /\
  forall (dq : Q) (c : Z) (k : nat) (message : string),
    d = JS.Num dq -> chunkLength cli = JS.of_Z c -> (0 < c)%Z ->
    (Z.of_nat k < Qceiling (dq / inject_Z c))%Z -> (k < fuel)%nat ->
    (forall j, (j < k)%nat ->
       ffmpeg_run env (List.length (invocations tr0) + j)
         (chunkCommand cli (mode_of cfg) (extension_of cfg) j) = End) ->
    ffmpeg_run env (List.length (invocations tr0) + k)
      (chunkCommand cli (mode_of cfg) (extension_of cfg) k) = Error message ->
    exists tr,
      processChunks cli env fuel d cfg md tr0 = (Throw message, tr0 ++ tr) /\
      tr = flat_map (completedEvents cli (mode_of cfg) (extension_of cfg)) (seq 0 k)
           ++ failedEvents cli (mode_of cfg) (extension_of cfg) k message /\
      invocations tr
      = map (chunkCommand cli (mode_of cfg) (extension_of cfg)) (seq 0 (S k)).
Proof.
  intros Hmode Hidle. split.
  - rewrite processChunks_standard by exact Hmode.
    pose proof (chunkLoop_phase cli env (mode_of cfg) (extension_of cfg) fuel
                  (JS.ceil (JS.div d (chunkLength cli))) 0 tr0 Hidle) as Hphase.
    unfold sequential.
    destruct (chunkLoop _ _ _ _ _ _ _ _) as [[[]| | |] tr']; cbn [snd];
      try rewrite phase_after_app; try rewrite Hphase; try reflexivity.
    contradiction.
  - intros dq c k message -> Hc Hpos Hk Hfuel Hrun Hfail.
    eexists. split; [|split; [reflexivity|]].
    + rewrite processChunks_standard by exact Hmode.
      rewrite Hc, ceil_div_of_Z by lia.
      rewrite (chunkLoop_fails cli env _ _ k 0 fuel tr0 _ message);
        [reflexivity | exact Hk | exact Hfuel | exact Hrun | exact Hfail].
    + rewrite invocations_app, invocations_completed_range.
      rewrite seq_S, map_app. reflexivity.
Qed.

(** A run whose second invocation fails: the third chunk is never started. *)
Lemma C7_sequential_abort_on_failure_witness :
  sequential
    (snd (processChunks (lesson_cli "60" "fast")
            (lesson_env 125 copy (fails_at 1 "Conversion failed!")) 4
            (JS.Num 125) (CopyConfig "mp4") empty_metadata [])) = true /\
  exists tr,
    processChunks (lesson_cli "60" "fast")
      (lesson_env 125 copy (fails_at 1 "Conversion failed!")) 4
      (JS.Num 125) (CopyConfig "mp4") empty_metadata []
    = (Throw "Conversion failed!", [] ++ tr) /\
    planned_jobs tr = [job 0 60; job 60 60].
Proof.
  destruct (C7_sequential_abort_on_failure (lesson_cli "60" "fast")
              (lesson_env 125 copy (fails_at 1 "Conversion failed!")) 4
              (CopyConfig "mp4") empty_metadata (JS.Num 125) [])
    as (Hseq & Habort).
  - discriminate.
  - reflexivity.
  - split; [exact Hseq|].
    destruct (Habort 125 60%Z 1%nat "Conversion failed!"%string)
      as (tr & Hrun & _ & Hinv).
    + reflexivity.
    + reflexivity.
    + lia.
    + vm_compute. reflexivity.
    + lia.
    + intros j Hj. assert (j = 0%nat) as -> by lia. reflexivity.
    + reflexivity.
    + exists tr. split; [exact Hrun|]. unfold planned_jobs. rewrite Hinv. reflexivity.
Defined.

(** ** The steps of [run] before [processChunks] *)

Lemma validateInput_passes (cli : CommandLine) (env : Environment) (tr : Trace) :
  inputFile cli <> ""%string -> input_exists env = true ->
  JS.le (chunkLength cli) (JS.of_Z 0) = false ->
  validateInput cli env tr = (Ok tt, tr ++ presetWarning cli).
Proof.
  intros Hfile Hexists Hlen. unfold validateInput, bind, when.
  destruct (String.eqb_spec (inputFile cli) ""); [contradiction|].
  rewrite Hexists, Hlen. cbn [negb ret]. unfold presetWarning.
  destruct (JS.array_includes validPresets (qualityPreset cli)); cbn [negb].
  - rewrite app_nil_r. reflexivity.
  - reflexivity.
Qed.

Lemma createOutputDirectory_events (cli : CommandLine) (env : Environment) (tr : Trace) :
  createOutputDirectory cli env tr = (Ok tt, tr ++ outputDirectoryEvents cli env).
Proof.
  unfold createOutputDirectory, outputDirectoryEvents, bind, when, log_success, emit, ret.
  fold (metadataPath cli).
  destruct (outputDir_exists env); cbn [negb]; rewrite <- ?app_assoc; reflexivity.
Qed.

Lemma onUnexpectedError_events (cli : CommandLine) (message : string) (tr : Trace) :
  onUnexpectedError message tr = (Exit 1, tr ++ unexpectedErrorEvents message).
Proof.
  unfold onUnexpectedError, unexpectedErrorEvents, bind, when, log_error,
    log_warning, emit, exit, ret.
  destruct (JS.includes "ffmpeg" message || JS.includes "ffprobe" message)%bool;
    rewrite <- ?app_assoc; reflexivity.
Qed.

(** A run whose input passes validation and whose probe reports a usable
    duration reaches [processChunks], with the mode asked for and the
    metadata probed. *)
Lemma main_reaches_processChunks (cli : CommandLine) (env : Environment)
    (format : Format) (streams : list Stream) (d : JS.number) :
  inputFile cli <> ""%string -> input_exists env = true ->
  JS.le (chunkLength cli) (JS.of_Z 0) = false ->
  ffprobe env = ProbeData format streams ->
  format_duration format = Some d -> JS.truthy d = true ->
  exists cfg,
    mode_of cfg = (if opt_hls (options cli) then hls else ans_mode (answers env)) /\
    forall fuel,
      main fuel cli env
      = try_catch (processChunks cli env fuel d cfg (probedMetadata format streams))
          onUnexpectedError (preamble cli env).
Proof.
  intros Hfile Hexists Hlen Hprobe Hformat Htruthy.
  assert (Hgen : forall (choose : M OutputConfig) (cfg : OutputConfig),
            (forall tr, choose tr = (Ok cfg, tr)) ->
            forall fuel,
              try_catch
                (bind (validateInput cli env) (fun _ =>
                 bind choose (fun outputConfig =>
                 bind (getVideoMetadata env) (fun metadata =>
                 bind (match duration metadata with
                       | Some d0 =>
                           if JS.truthy d0 then ret d0
                           else bind (log_error "Could not determine video duration. Please check if the file is a valid video.") (fun _ => exit 1)
                       | None =>
                           bind (log_error "Could not determine video duration. Please check if the file is a valid video.") (fun _ => exit 1)
                       end) (fun totalDuration =>
                 bind (log_success "Video analysis complete:") (fun _ =>
                 bind (createOutputDirectory cli env) (fun _ =>
                 processChunks cli env fuel totalDuration outputConfig metadata)))))))
                onUnexpectedError []
              = try_catch (processChunks cli env fuel d cfg (probedMetadata format streams))
                  onUnexpectedError (preamble cli env)).
  { intros choose cfg Hchoose fuel.
    unfold try_catch, bind at 1. rewrite validateInput_passes by assumption.
    unfold bind at 1. rewrite Hchoose.
    unfold bind at 1, getVideoMetadata. rewrite Hprobe. unfold ret at 1.
    unfold probedMetadata at 1. cbn [duration]. rewrite Hformat, Htruthy.
    unfold bind at 1, ret at 1. unfold bind at 1, log_success at 1, emit.
    unfold bind at 1. rewrite createOutputDirectory_events.
    unfold preamble. cbn [app]. rewrite <- !app_assoc. reflexivity. }
  unfold main, run.
  destruct (opt_hls (options cli)).
  - eexists. split; [|apply Hgen; intros tr; reflexivity]. reflexivity.
  - unfold setupOutput.
    destruct (ans_mode (answers env)); [| destruct (ans_extension (answers env)) |];
      (eexists; split; [|apply Hgen; intros tr; reflexivity]); reflexivity.
Qed.

(** ** Validation of the chunk length *)

(** C8: whenever the chunk length read from the command line is [<= 0],
    the run ends in [validateInput] with exit status 1 after a single error
    line (the chunk-length one when the input file is given and exists); no
    invocation is started and no file is written. *)
Theorem C8_nonpositive_length_rejected (cli : CommandLine) (env : Environment)
    (fuel : nat) :
  JS.le (chunkLength cli) (JS.of_Z 0) = true ->
  exists message,
    main fuel cli env = (Exit 1, [Log error message]) /\
    exit_code (fst (main fuel cli env)) = Some 1%Z /\
    invocations (snd (main fuel cli env)) = [] /\
    written (snd (main fuel cli env)) = [] /\
    (inputFile cli <> ""%string -> input_exists env = true ->
     message = "Chunk length must be greater than 0 seconds."%string).
Proof.
  intros Hlen.
  assert (H : exists message,
             main fuel cli env = (Exit 1, [Log error message]) /\
             (inputFile cli <> ""%string -> input_exists env = true ->
              message = "Chunk length must be greater than 0 seconds."%string)).
  { unfold main, run, try_catch, bind at 1, validateInput, bind at 1, when.
    destruct (String.eqb_spec (inputFile cli) "") as [Hfile|Hfile].
    - eexists. split; [reflexivity | intros Hne; contradiction].
    - cbn [ret]. unfold bind at 1. destruct (input_exists env).
      + cbn [negb ret]. unfold bind at 1. rewrite Hlen.
        eexists. split; [reflexivity | intros _ _; reflexivity].
      + eexists. split; [reflexivity | intros _ Hex; discriminate]. }
  destruct H as (message & Hrun & Hmsg). exists message. rewrite Hrun.
  repeat split; try reflexivity. exact Hmsg.
Qed.

(** [--length -30] is rejected. *)
Lemma C8_nonpositive_length_rejected_witness :
  JS.parseInt10 "-30" = JS.of_Z (-30) /\
  exists message,
    main 4 (lesson_cli "-30" "fast") (lesson_env 125 copy always_end)
    = (Exit 1, [Log error message]).
Proof.
  split; [reflexivity|].
  destruct (C8_nonpositive_length_rejected (lesson_cli "-30" "fast")
              (lesson_env 125 copy always_end) 4)
    as (message & Hrun & _).
  - reflexivity.
  - exists message. exact Hrun.
Defined.

Lemma div_NaN (d : JS.number) : JS.div d JS.NaN = JS.NaN.
Proof. destruct d; reflexivity. Qed.

(** C10: when [parseInt] cannot read the [--length] value, the chunk length
    is [NaN]; validation does not reject it, the chunk count is [NaN], the
    loop body never runs, and the run ends with the success line and exit
    status 0, having started no invocation and written nothing but the
    metadata file. *)
Theorem C10_unparseable_length_silent_success (cli : CommandLine) (env : Environment)
    (fuel : nat) (format : Format) (streams : list Stream) (d : JS.number) :
  JS.parseInt10 (opt_length (options cli)) = JS.NaN ->
  inputFile cli <> ""%string -> input_exists env = true ->
  opt_hls (options cli) = false -> ans_mode (answers env) <> hls ->
  ffprobe env = ProbeData format streams ->
  format_duration format = Some d -> JS.truthy d = true ->
  (0 < fuel)%nat ->
  chunkLength cli = JS.NaN /\
  JS.le (chunkLength cli) (JS.of_Z 0) = false /\
  JS.ceil (JS.div d (chunkLength cli)) = JS.NaN /\
  main fuel cli env = (Ok tt, preamble cli env ++ [processingComplete]) /\
  exit_code (fst (main fuel cli env)) = Some 0%Z /\
  invocations (snd (main fuel cli env)) = [] /\
  written (snd (main fuel cli env))
  = [(metadataPath cli,
      MetadataJson (inputFile cli) JS.NaN (qualityPreset cli) (outputDir cli))].
Proof.
  intros Hparse Hfile Hexists Hflag Hmode Hprobe Hformat Htruthy Hfuel.
  assert (Hlen : chunkLength cli = JS.NaN) by exact Hparse.
  assert (Hle : JS.le (chunkLength cli) (JS.of_Z 0) = false)
    by (rewrite Hlen; reflexivity).
  assert (Hrun : main fuel cli env = (Ok tt, preamble cli env ++ [processingComplete])).
  { destruct (main_reaches_processChunks cli env format streams d
                Hfile Hexists Hle Hprobe Hformat Htruthy)
      as (cfg & Hcfg & Hmain).
    rewrite Hflag in Hcfg. rewrite Hmain. unfold try_catch.
    rewrite processChunks_standard by (rewrite Hcfg; exact Hmode).
    rewrite Hlen, div_NaN. destruct fuel as [|fuel]; [lia|].
    rewrite chunkLoop_step. reflexivity. }
  rewrite Hrun. cbn [fst snd exit_code].
  repeat split; try assumption; try reflexivity.
  - rewrite Hlen, div_NaN. reflexivity.
  - unfold preamble, presetWarning, outputDirectoryEvents.
    destruct (JS.array_includes validPresets (qualityPreset cli));
      destruct (outputDir_exists env); reflexivity.
  - unfold preamble, presetWarning, outputDirectoryEvents. rewrite Hlen.
    destruct (JS.array_includes validPresets (qualityPreset cli));
      destruct (outputDir_exists env); reflexivity.
Qed.

(** [--length abc] runs to the success line without a single invocation. *)
Lemma C10_unparseable_length_silent_success_witness :
  JS.parseInt10 "abc" = JS.NaN /\
  main 1 (lesson_cli "abc" "fast") (lesson_env 125 copy always_end)
  = (Ok tt, preamble (lesson_cli "abc" "fast") (lesson_env 125 copy always_end)
            ++ [processingComplete]).
Proof.
  split; [reflexivity|].
  refine (proj1 (proj2 (proj2 (proj2
    (C10_unparseable_length_silent_success (lesson_cli "abc" "fast")
       (lesson_env 125 copy always_end) 1 _ _ (JS.of_Z 125)
       _ _ _ _ _ eq_refl eq_refl eq_refl _))))).
  - reflexivity.
  - discriminate.
  - reflexivity.
  - reflexivity.
  - discriminate.
  - lia.
Defined.

(** ** The quality preset *)

Local Open Scope string_scope.

(** The re-encode options of a chunk carry the preset exactly as given on
    the command line. *)
Lemma encode_options_preset (cli : CommandLine) (extension : string) (i : nat) :
  cmd_outputOptions (chunkCommand cli encode extension i)
  = [Str "-c:v libx264"; Str "-preset"; Str (opt_quality (options cli));
     Str "-c:a aac"; Str "-movflags"; Str "+faststart";
     Str "-avoid_negative_ts"; Str "make_zero"].
Proof. reflexivity. Qed.

(** C2 (the code at the failing input): with [--quality turbo] in re-encode
    mode the run is not aborted and the warning is logged, but every
    invocation is still given the preset "turbo", and the metadata file
    records "turbo" as well; "fast" is never substituted. *)
Theorem C2_invalid_preset_not_substituted :
  fst (main 4 (lesson_cli "60" "turbo") (lesson_env 125 encode always_end)) = Ok tt /\
  presetWarning (lesson_cli "60" "turbo")
  = [Log warning ("Invalid quality preset: " ++ dquote ++ "turbo" ++ dquote
                  ++ ". Using " ++ dquote ++ "fast" ++ dquote ++ " instead.")] /\
  map cmd_outputOptions
    (invocations (snd (main 4 (lesson_cli "60" "turbo") (lesson_env 125 encode always_end))))
  = repeat [Str "-c:v libx264"; Str "-preset"; Str "turbo";
            Str "-c:a aac"; Str "-movflags"; Str "+faststart";
            Str "-avoid_negative_ts"; Str "make_zero"] 3 /\
  written (snd (main 4 (lesson_cli "60" "turbo") (lesson_env 125 encode always_end)))
  = [("out/ielts2go_metadata.json", MetadataJson "video.mp4" (JS.of_Z 60) "turbo" "out")].
Proof.
  split; [|split; [|split]]; vm_compute; reflexivity.
Qed.

(** ** Chunk file names *)











Local Close Scope string_scope.

(** ** HLS mode *)

Lemma createMasterPlaylist_events (cli : CommandLine) (md : Metadata) (tr : Trace) :
  createMasterPlaylist cli md tr = (Ok tt, tr ++ artifactEvents cli md).
Proof.
  unfold createMasterPlaylist, createHLSPlayer, artifactEvents, bind, log_success,
    emit, ret.
  rewrite <- !app_assoc. reflexivity.
Qed.

Lemma tryLastResort_outcome (cli : CommandLine) (env : Environment) (tr : Trace) :
  tryLastResortHLSConversion cli env (playlistPath cli) (segmentPattern cli) tr
  = match ffmpeg_run env (List.length (invocations tr)) (fallbackCommand cli) with
    | End => (Ok tt, tr ++ fallbackEnded cli)
    | Error m2 => (Throw m2, tr ++ fallbackFailed cli m2)
    end.
Proof.
  unfold tryLastResortHLSConversion, bind at 1, invoke.
  fold (fallbackCommand cli).
  destruct (ffmpeg_run env (List.length (invocations tr)) (fallbackCommand cli)) as [|m2].
  - unfold bind, log_success, emit. rewrite createMasterPlaylist_events.
    unfold fallbackEnded. rewrite <- !app_assoc. reflexivity.
  - unfold bind, log_error, log_warning, emit, throw, fallbackFailed.
    rewrite <- !app_assoc. reflexivity.
Qed.

(** [processHLSStream] makes the primary invocation, and the fallback one
    exactly when the primary fails. *)
Lemma processHLSStream_outcome (cli : CommandLine) (env : Environment)
    (segmentLength : JS.number) (playlistType : string) (md : Metadata) (tr : Trace) :
  processHLSStream cli env segmentLength playlistType md tr
  = (fst (hlsOutcome cli env (List.length (invocations tr)) segmentLength playlistType md),
     tr ++ snd (hlsOutcome cli env (List.length (invocations tr)) segmentLength
                  playlistType md)).
Proof.
  unfold processHLSStream, hlsOutcome, bind at 1, when.
  fold (hlsDir cli). fold (playlistPath cli). fold (segmentPattern cli).
  fold (primaryCommand cli segmentLength playlistType).
  set (primary := primaryCommand cli segmentLength playlistType).
  set (n := List.length (invocations tr)).
  set (made := if hlsDir_exists env then [] else [Mkdir (hlsDir cli)]).
  assert (Hmade : invocations made = [])
    by (unfold made; destruct (hlsDir_exists env); reflexivity).
  assert (Hpre : (if negb (hlsDir_exists env) then emit (Mkdir (hlsDir cli)) else ret tt) tr
                 = (Ok tt, tr ++ made)).
  { unfold made. destruct (hlsDir_exists env); cbn [negb]; unfold ret, emit;
      rewrite ?app_nil_r; reflexivity. }
  rewrite Hpre. unfold bind at 1, invoke.
  rewrite invocations_app, Hmade, app_nil_r. fold n.
  destruct (ffmpeg_run env n primary) as [|m1].
  - unfold bind, log_success, emit. rewrite createMasterPlaylist_events.
    unfold primaryEnded. cbn [fst snd]. rewrite <- !app_assoc. reflexivity.
  - unfold bind at 1, log_error, emit. unfold bind at 1, log_warning, emit.
    rewrite tryLastResort_outcome.
    replace (List.length (invocations
               ((((tr ++ made) ++ [Run primary; Failed primary m1])
                 ++ [Log error ("HLS conversion failed: " ++ m1)])
                ++ [Log warning "Trying with even more basic parameters..."])))
      with (S n).
    2:{ rewrite !invocations_app, Hmade. cbn [invocations].
        rewrite !app_nil_r, List.length_app. cbn [List.length]. fold n. lia. }
    destruct (ffmpeg_run env (S n) (fallbackCommand cli)) as [|m2];
      unfold primaryFailed; cbn [fst snd]; rewrite <- !app_assoc; reflexivity.
Qed.

Lemma invocations_artifacts (cli : CommandLine) (md : Metadata) :
  invocations (artifactEvents cli md) = [].
Proof. reflexivity. Qed.

Lemma contains_char_append (c : ascii) (a b : string) :
  contains_char c (a ++ b) = contains_char c a || contains_char c b.
Proof.
  induction a as [|c' a IH]; [reflexivity|].
  cbn [append contains_char]. rewrite IH, orb_assoc. reflexivity.
Qed.

(** A joined path holds a slash, so it is never the name of an option. *)
Lemma path_join_not_option (a b name : string) :
  contains_char "/" name = false -> String.eqb (path_join a b) name = false.
Proof.
  intros Hname. apply String.eqb_neq. intros Heq.
  assert (Hslash : contains_char "/" (path_join a b) = true).
  { unfold path_join. rewrite contains_char_append. cbn. apply orb_true_r. }
  rewrite Heq, Hname in Hslash. discriminate.
Qed.

Lemma fallback_has_no_playlist_type (cli : CommandLine) :
  has_option "-hls_playlist_type" (fallbackCommand cli) = false.
Proof.
  unfold has_option, fallbackCommand, lastResortCommand.
  cbn [cmd_outputOptions existsb]. unfold segmentPattern.
  rewrite path_join_not_option by reflexivity. reflexivity.
Qed.

(** C3: when the primary HLS invocation fails, exactly one more invocation
    is started, the fallback, with the fixed reduced options (libx264,
    preset ultrafast, aac, 4-second segments, no playlist-type option); the
    run succeeds when the fallback ends, and when it fails too the run
    throws its error without a third invocation. *)
Theorem C3_single_reduced_fallback (cli : CommandLine) (env : Environment)
    (fuel : nat) (d : JS.number) (extension : string) (segmentLength : JS.number)
    (playlistType : string) (md : Metadata) (tr0 : Trace) (m1 : string) :
  ffmpeg_run env (List.length (invocations tr0))
    (primaryCommand cli segmentLength playlistType) = Error m1 ->
  exists r tr,
    processChunks cli env fuel d (HlsConfig extension segmentLength playlistType) md tr0
    = (r, tr0 ++ tr) /\
    invocations tr = [primaryCommand cli segmentLength playlistType; fallbackCommand cli] /\
    cmd_outputOptions (fallbackCommand cli)
    = [Str "-c:v"; Str "libx264"; Str "-preset"; Str "ultrafast";
       Str "-c:a"; Str "aac"; Str "-hls_time"; Number (JS.of_Z 4);
       Str "-hls_segment_filename"; Str (segmentPattern cli);
       Str "-f"; Str "hls"] /\
    has_option "-hls_playlist_type" (fallbackCommand cli) = false /\
    (ffmpeg_run env (S (List.length (invocations tr0))) (fallbackCommand cli) = End ->
     r = Ok tt) /\
    (forall m2,
       ffmpeg_run env (S (List.length (invocations tr0))) (fallbackCommand cli) = Error m2 ->
       r = Throw m2).
Proof.
  intros Hprimary. cbn [processChunks].
  rewrite processHLSStream_outcome. unfold hlsOutcome. rewrite Hprimary.
  set (made := if hlsDir_exists env then [] else [Mkdir (hlsDir cli)]).
  assert (Hmade : invocations made = [])
    by (unfold made; destruct (hlsDir_exists env); reflexivity).
  destruct (ffmpeg_run env (S (List.length (invocations tr0))) (fallbackCommand cli))
    as [|m2]; cbn [fst snd]; eexists _, _; (split; [reflexivity|]);
    rewrite !invocations_app, Hmade; (split; [reflexivity|]);
    (split; [reflexivity|]); (split; [apply fallback_has_no_playlist_type|]);
    (split; [intros H | intros m2' H]); congruence.
Qed.

(** An engine that fails every invocation is asked twice, then the run throws. *)
Lemma C3_single_reduced_fallback_witness :
  exists tr,
    processChunks (lesson_cli "60" "fast")
      (lesson_env 125 hls (fun _ _ => Error "Conversion failed!")) 1 (JS.of_Z 125)
      (HlsConfig "ts" (JS.of_Z 6) "vod") empty_metadata []
    = (Throw "Conversion failed!", [] ++ tr) /\
    List.length (invocations tr) = 2%nat.
Proof.
  destruct (C3_single_reduced_fallback (lesson_cli "60" "fast")
              (lesson_env 125 hls (fun _ _ => Error "Conversion failed!")) 1
              (JS.of_Z 125) "ts" (JS.of_Z 6) "vod" empty_metadata []
              "Conversion failed!" eq_refl)
    as (r & tr & Hrun & Hinv & _ & _ & _ & Hfail).
  exists tr. rewrite Hrun, Hinv, (Hfail "Conversion failed!"%string eq_refl).
  split; reflexivity.
Defined.

Lemma invocations_preamble (cli : CommandLine) (env : Environment) :
  invocations (preamble cli env) = [].
Proof.
  unfold preamble, presetWarning, outputDirectoryEvents.
  destruct (JS.array_includes validPresets (qualityPreset cli));
    destruct (outputDir_exists env); reflexivity.
Qed.

Lemma invocations_unexpectedError (message : string) :
  invocations (unexpectedErrorEvents message) = [].
Proof.
  unfold unexpectedErrorEvents.
  destruct (JS.includes "ffmpeg" message || JS.includes "ffprobe" message)%bool;
    reflexivity.
Qed.

(** A run in HLS mode is the preamble, then [processHLSStream] from no
    invocation with the metadata probed, then the [catch] block when both
    attempts failed. *)
Lemma main_hls (cli : CommandLine) (env : Environment) (fuel : nat)
    (format : Format) (streams : list Stream) (d : JS.number) :
  inputFile cli <> ""%string -> input_exists env = true ->
  JS.le (chunkLength cli) (JS.of_Z 0) = false ->
  ffprobe env = ProbeData format streams ->
  format_duration format = Some d -> JS.truthy d = true ->
  (if opt_hls (options cli) then hls else ans_mode (answers env)) = hls ->
  exists segmentLength playlistType,
    main fuel cli env
    = match hlsOutcome cli env 0 segmentLength playlistType
              (probedMetadata format streams) with
      | (Throw message, tr) =>
          (Exit 1, preamble cli env ++ tr ++ unexpectedErrorEvents message)
      | (r, tr) => (r, preamble cli env ++ tr)
      end.
Proof.
  intros Hfile Hexists Hlen Hprobe Hformat Htruthy Hmode.
  destruct (main_reaches_processChunks cli env format streams d
              Hfile Hexists Hlen Hprobe Hformat Htruthy)
    as (cfg & Hcfg & Hmain).
  rewrite Hmode in Hcfg.
  destruct cfg as [e|e|e segmentLength playlistType]; try discriminate.
  exists segmentLength, playlistType.
  rewrite Hmain. unfold try_catch. cbn [processChunks].
  rewrite processHLSStream_outcome, invocations_preamble. cbn [List.length].
  destruct (hlsOutcome cli env 0 segmentLength playlistType
              (probedMetadata format streams)) as [[[]|message|code|] tr];
    cbn [fst snd]; try reflexivity.
  rewrite onUnexpectedError_events by exact cli. rewrite <- app_assoc. reflexivity.
Qed.

Section Observers.

Variable observe : Event -> bool.
Hypothesis ignores_logs : forall l m, observe (Log l m) = false.
Hypothesis ignores_console : forall m, observe (ConsoleError m) = false.
Hypothesis ignores_mkdir : forall p, observe (Mkdir p) = false.
Hypothesis ignores_metadata : forall p a b c d, observe (WriteFile p (MetadataJson a b c d)) = false.

Lemma preamble_unobserved (cli : CommandLine) (env : Environment) :
  existsb observe (preamble cli env) = false.
Proof.
  unfold preamble, presetWarning, outputDirectoryEvents.
  destruct (JS.array_includes validPresets (qualityPreset cli));
    destruct (outputDir_exists env); cbn [app existsb];
    rewrite ?ignores_logs, ?ignores_mkdir, ?ignores_metadata; reflexivity.
Qed.

Lemma unexpectedError_unobserved (message : string) :
  existsb observe (unexpectedErrorEvents message) = false.
Proof.
  unfold unexpectedErrorEvents.
  destruct (JS.includes "ffmpeg" message || JS.includes "ffprobe" message)%bool;
    cbn [app existsb]; rewrite ?ignores_logs, ?ignores_console; reflexivity.
Qed.

Lemma hlsDir_unobserved (cli : CommandLine) (env : Environment) :
  existsb observe (if hlsDir_exists env then [] else [Mkdir (hlsDir cli)]) = false.
Proof.
  destruct (hlsDir_exists env); cbn [existsb]; rewrite ?ignores_mkdir; reflexivity.
Qed.

End Observers.

Ltac observe_trace :=
  rewrite ?existsb_app;
  rewrite ?preamble_unobserved, ?unexpectedError_unobserved, ?hlsDir_unobserved
    by reflexivity;
  reflexivity.

(** C4: in HLS mode the master playlist and the player page are written
    exactly when some invocation ends.  After a failed primary and a
    completed fallback the run succeeds with two invocations and both files
    written; after two failures it exits with status 1, again after two
    invocations, and neither file is written. *)
Theorem C4_hls_artifacts_iff_success (cli : CommandLine) (env : Environment)
    (fuel : nat) (format : Format) (streams : list Stream) (d : JS.number) :
  inputFile cli <> ""%string -> input_exists env = true ->
  JS.le (chunkLength cli) (JS.of_Z 0) = false ->
  ffprobe env = ProbeData format streams ->
  format_duration format = Some d -> JS.truthy d = true ->
  (if opt_hls (options cli) then hls else ans_mode (answers env)) = hls ->
  let result := fst (main fuel cli env) in
  let tr := snd (main fuel cli env) in
  existsb is_master_write tr = existsb is_ended tr /\
  existsb is_player_write tr = existsb is_ended tr /\
  (result = Ok tt <-> existsb is_ended tr = true) /\
  (forall m1,
     (forall c, ffmpeg_run env 0 c = Error m1) -> (forall c, ffmpeg_run env 1 c = End) ->
     result = Ok tt /\ exit_code result = Some 0%Z /\
     List.length (invocations tr) = 2%nat /\
     existsb is_master_write tr = true /\ existsb is_player_write tr = true) /\
  (forall m1 m2,
     (forall c, ffmpeg_run env 0 c = Error m1) ->
     (forall c, ffmpeg_run env 1 c = Error m2) ->
     result = Exit 1 /\ exit_code result = Some 1%Z /\
     List.length (invocations tr) = 2%nat /\
     existsb is_master_write tr = false /\ existsb is_player_write tr = false).
Proof.
  intros Hfile Hexists Hlen Hprobe Hformat Htruthy Hmode result tr.
  destruct (main_hls cli env fuel format streams d
              Hfile Hexists Hlen Hprobe Hformat Htruthy Hmode)
    as (segmentLength & playlistType & Hmain).
  subst result tr. rewrite Hmain. clear Hmain. unfold hlsOutcome.
  set (primary := primaryCommand cli segmentLength playlistType).
  destruct (ffmpeg_run env 0 primary) as [|m1] eqn:H0;
    [| destruct (ffmpeg_run env 1 (fallbackCommand cli)) as [|m2] eqn:H1 ];
    cbn [fst snd exit_code].
  - split; [observe_trace|]. split; [observe_trace|].
    split; [split; [intros _; observe_trace | reflexivity]|].
    split; [intros m1 Hfail | intros m1 m2 Hfail]; rewrite Hfail in H0; discriminate.
  - split; [observe_trace|]. split; [observe_trace|].
    split; [split; [intros _; observe_trace | reflexivity]|].
    split; [intros m1' _ _ | intros m1' m2 _ Hfail; rewrite Hfail in H1; discriminate].
    split; [reflexivity|]. split; [reflexivity|].
    split; [| split; observe_trace].
    rewrite !invocations_app, invocations_preamble.
    destruct (hlsDir_exists env); reflexivity.
  - split; [observe_trace|]. split; [observe_trace|].
    split; [split; [discriminate|]|].
    { replace (existsb is_ended _) with false by (symmetry; observe_trace).
      discriminate. }
    split; [intros m1' _ Hend; rewrite Hend in H1; discriminate | intros m1' m2' _ _].
    split; [reflexivity|]. split; [reflexivity|].
    split; [| split; observe_trace].
    rewrite !invocations_app, invocations_preamble, invocations_unexpectedError.
    destruct (hlsDir_exists env); reflexivity.
Qed.

(** An engine that fails only the primary invocation: the run succeeds after two
    invocations and the master playlist is written. *)
Lemma C4_hls_artifacts_iff_success_witness :
  fst (main 1 (lesson_cli "60" "fast") (lesson_env 125 hls (fails_at 0 "Conversion failed!")))
  = Ok tt /\
  List.length
    (invocations
       (snd (main 1 (lesson_cli "60" "fast")
               (lesson_env 125 hls (fails_at 0 "Conversion failed!"))))) = 2%nat /\
  existsb is_master_write
    (snd (main 1 (lesson_cli "60" "fast")
            (lesson_env 125 hls (fails_at 0 "Conversion failed!")))) = true.
Proof.
  destruct (C4_hls_artifacts_iff_success (lesson_cli "60" "fast")
              (lesson_env 125 hls (fails_at 0 "Conversion failed!")) 1
              (lesson_format 125) lesson_streams (JS.of_Z 125))
    as (_ & _ & _ & Hfallback & _).
  - discriminate.
  - reflexivity.
  - reflexivity.
  - reflexivity.
  - reflexivity.
  - reflexivity.
  - reflexivity.
  - destruct (Hfallback "Conversion failed!"%string)
      as (Hok & _ & Htwo & Hmaster & _).
    + intros c. reflexivity.
    + intros c. reflexivity.
    + split; [exact Hok | split; [exact Htwo | exact Hmaster]].
Defined.

Local Open Scope string_scope.

Lemma append_assoc (a b c : string) : (a ++ b) ++ c = a ++ (b ++ c).
Proof. induction a as [|x a IH]; [reflexivity|]. cbn. rewrite IH. reflexivity. Qed.

(** The template literal of [createMasterPlaylist] is the four lines of the
    specification, with the resolution it is given or the default. *)
Lemma masterPlaylistContent_lines (cli : CommandLine) (md : Metadata) :
  masterPlaylistContent cli md
  = unlines (specMasterLines (filePrefix cli)
               (JS.opt_str_or (resolution md) "1280x720")).
Proof.
  unfold masterPlaylistContent, specMasterLines, unlines.
  rewrite !append_assoc. reflexivity.
Qed.

(** What [createMasterPlaylist] writes for the metadata it is handed: the
    master playlist is the four-line template with the prefix and the
    resolution substituted, the resolution being 1280x720 when the metadata
    holds none and the bandwidth the constant 2800000; for the prefix
    "lesson" and the resolution 1920x1080 it is the text below.  Which
    metadata a run hands over is settled further down. *)
Lemma createMasterPlaylist_template (cli : CommandLine) (md : Metadata) (tr : Trace) :
  createMasterPlaylist cli md tr = (Ok tt, tr ++ artifactEvents cli md)%list /\
  written (artifactEvents cli md)
  = [(masterPlaylistPath cli,
      MasterPlaylist
        (unlines (specMasterLines (filePrefix cli)
                    (match resolution md with
                     | Some r => if String.eqb r "" then "1280x720" else r
                     | None => "1280x720"
                     end))));
     (playerPath cli, PlayerHtml (inputFile cli) (masterPlaylistPath cli) md);
     (path_join (outputDir cli) "PLAYBACK.md",
      PlaybackReadme (masterPlaylistPath cli) (filePrefix cli))] /\
  (opt_prefix (options cli) = "lesson" -> resolution md = Some "1920x1080" ->
   masterPlaylistContent cli md
   = "#EXTM3U
#EXT-X-VERSION:3
#EXT-X-STREAM-INF:BANDWIDTH=2800000,RESOLUTION=1920x1080
hls/lesson.m3u8
").
Proof.
  split; [apply createMasterPlaylist_events|]. split.
  - unfold artifactEvents. cbn [written]. rewrite masterPlaylistContent_lines.
    destruct (resolution md) as [[|c r]|]; reflexivity.
  - intros Hprefix Hresolution. unfold masterPlaylistContent, filePrefix.
    rewrite Hprefix, Hresolution. reflexivity.
Qed.

Local Close Scope string_scope.

Lemma master_texts_app (tr1 tr2 : Trace) :
  master_texts (tr1 ++ tr2) = master_texts tr1 ++ master_texts tr2.
Proof.
  induction tr1 as [|e tr1 IH]; [reflexivity|].
  destruct e as [| | |p []| | |]; cbn [app master_texts]; rewrite IH; reflexivity.
Qed.

Lemma master_texts_preamble (cli : CommandLine) (env : Environment) :
  master_texts (preamble cli env) = [].
Proof.
  unfold preamble, presetWarning, outputDirectoryEvents.
  destruct (JS.array_includes validPresets (qualityPreset cli));
    destruct (outputDir_exists env); reflexivity.
Qed.

Lemma probed_resolution_kept (format : Format) (streams : list Stream) :
  JS.opt_str_or (resolution (probedMetadata format streams)) "1280x720"
  = probedResolution streams.
Proof.
  unfold probedMetadata, probedResolution. cbn [resolution JS.opt_str_or].
  destruct (find (fun s => String.eqb (codec_type s) "video") streams) as [v|];
    [|reflexivity].
  destruct (JS.string_of_Z (width v)); reflexivity.
Qed.

(** X1: in a whole HLS run the resolution line of the master playlist
    depends on the attempt that ended.  When the primary invocation ends,
    the playlist carries the resolution string probed, which is "Unknown"
    for a source without a video stream; when the primary fails and the
    fallback ends, it carries 1280x720 whatever was probed. *)
Theorem X1_master_playlist_resolution_by_attempt (cli : CommandLine)
    (env : Environment) (fuel : nat) (format : Format) (streams : list Stream)
    (d : JS.number) :
  inputFile cli <> ""%string -> input_exists env = true ->
  JS.le (chunkLength cli) (JS.of_Z 0) = false ->
  ffprobe env = ProbeData format streams ->
  format_duration format = Some d -> JS.truthy d = true ->
  (if opt_hls (options cli) then hls else ans_mode (answers env)) = hls ->
  ((forall c, ffmpeg_run env 0 c = End) ->
   master_texts (snd (main fuel cli env))
   = [unlines (specMasterLines (filePrefix cli) (probedResolution streams))]) /\
  (forall m1,
     (forall c, ffmpeg_run env 0 c = Error m1) -> (forall c, ffmpeg_run env 1 c = End) ->
     master_texts (snd (main fuel cli env))
     = [unlines (specMasterLines (filePrefix cli) "1280x720")]) /\
  (find (fun s => String.eqb (codec_type s) "video") streams = None ->
   probedResolution streams = "Unknown"%string).
Proof.
  intros Hfile Hexists Hlen Hprobe Hformat Htruthy Hmode.
  destruct (main_hls cli env fuel format streams d
              Hfile Hexists Hlen Hprobe Hformat Htruthy Hmode)
    as (segmentLength & playlistType & Hmain).
  rewrite Hmain. clear Hmain. unfold hlsOutcome.
  split; [|split].
  - intros Hend. rewrite Hend. cbn [snd].
    rewrite !master_texts_app, master_texts_preamble.
    unfold primaryEnded, artifactEvents.
    rewrite masterPlaylistContent_lines, probed_resolution_kept.
    destruct (hlsDir_exists env); reflexivity.
  - intros m1 Hfail Hend. rewrite Hfail, Hend. cbn [snd].
    rewrite !master_texts_app, master_texts_preamble.
    unfold fallbackEnded, artifactEvents. rewrite masterPlaylistContent_lines.
    destruct (hlsDir_exists env); reflexivity.
  - intros Hnone. unfold probedResolution. rewrite Hnone. reflexivity.
Qed.

(** After a failed primary and a completed fallback a 1920x1080 source gets
    the default resolution. *)
Lemma X1_master_playlist_resolution_by_attempt_witness :
  master_texts
    (snd (main 1 (lesson_cli "60" "fast") (lesson_env 125 hls (fails_at 0 "Conversion failed!"))))
  = [unlines (specMasterLines "lesson" "1280x720")].
Proof.
  destruct (X1_master_playlist_resolution_by_attempt (lesson_cli "60" "fast")
              (lesson_env 125 hls (fails_at 0 "Conversion failed!")) 1
              (lesson_format 125) lesson_streams (JS.of_Z 125))
    as (_ & Hfallback & _).
  - discriminate.
  - reflexivity.
  - reflexivity.
  - reflexivity.
  - reflexivity.
  - reflexivity.
  - reflexivity.
  - apply (Hfallback "Conversion failed!"%string); intros c; reflexivity.
Defined.

(** ** The master playlist over whole runs *)

Lemma master_files_app (tr1 tr2 : Trace) :
  master_files (tr1 ++ tr2) = master_files tr1 ++ master_files tr2.
Proof.
  induction tr1 as [|e tr1 IH]; [reflexivity|].
  destruct e as [| | |p []| | |]; cbn [app master_files]; rewrite IH; reflexivity.
Qed.

Lemma master_files_preamble (cli : CommandLine) (env : Environment) :
  master_files (preamble cli env) = [].
Proof.
  unfold preamble, presetWarning, outputDirectoryEvents.
  destruct (JS.array_includes validPresets (qualityPreset cli));
    destruct (outputDir_exists env); reflexivity.
Qed.

Lemma master_files_unexpectedError (message : string) :
  master_files (unexpectedErrorEvents message) = [].
Proof.
  unfold unexpectedErrorEvents.
  destruct (JS.includes "ffmpeg" message || JS.includes "ffprobe" message)%bool;
    reflexivity.
Qed.

(** The master playlist an attempt that ended leaves behind, for the
    metadata [createMasterPlaylist] was handed. *)
Lemma master_files_artifacts (cli : CommandLine) (md : Metadata) :
  master_files (artifactEvents cli md)
  = [(masterPlaylistPath cli,
      unlines (specMasterLines (filePrefix cli)
                 (JS.opt_str_or (resolution md) "1280x720")))].
Proof.
  unfold artifactEvents. cbn [master_files app].
  rewrite masterPlaylistContent_lines. reflexivity.
Qed.

Lemma master_texts_of_files (tr : Trace) :
  master_texts tr = map snd (master_files tr).
Proof.
  induction tr as [|e tr IH]; [reflexivity|].
  destruct e as [| | |p []| | |]; cbn [master_texts master_files map snd];
    rewrite ?IH; reflexivity.
Qed.

(** The master playlists of a whole HLS run, by the engine's answers. *)
Lemma master_files_of_hls_run (cli : CommandLine) (env : Environment) (fuel : nat)
    (format : Format) (streams : list Stream) (d : JS.number) :
  inputFile cli <> ""%string -> input_exists env = true ->
  JS.le (chunkLength cli) (JS.of_Z 0) = false ->
  ffprobe env = ProbeData format streams ->
  format_duration format = Some d -> JS.truthy d = true ->
  (if opt_hls (options cli) then hls else ans_mode (answers env)) = hls ->
  exists segmentLength playlistType,
    master_files (snd (main fuel cli env))
    = match ffmpeg_run env 0 (primaryCommand cli segmentLength playlistType) with
      | End =>
          [(masterPlaylistPath cli,
            unlines (specMasterLines (filePrefix cli) (probedResolution streams)))]
      | Error _ =>
          match ffmpeg_run env 1 (fallbackCommand cli) with
          | End =>
              [(masterPlaylistPath cli,
                unlines (specMasterLines (filePrefix cli) "1280x720"))]
          | Error _ => []
          end
      end.
Proof.
  intros Hfile Hexists Hlen Hprobe Hformat Htruthy Hmode.
  destruct (main_hls cli env fuel format streams d
              Hfile Hexists Hlen Hprobe Hformat Htruthy Hmode)
    as (segmentLength & playlistType & Hmain).
  exists segmentLength, playlistType.
  rewrite Hmain. clear Hmain. unfold hlsOutcome.
  destruct (ffmpeg_run env 0 (primaryCommand cli segmentLength playlistType))
    as [|m1].
  - cbn [snd]. rewrite !master_files_app, master_files_preamble.
    unfold primaryEnded. rewrite master_files_app, master_files_artifacts.
    rewrite probed_resolution_kept.
    destruct (hlsDir_exists env); reflexivity.
  - destruct (ffmpeg_run env 1 (fallbackCommand cli)) as [|m2]; cbn [snd].
    + rewrite !master_files_app, master_files_preamble.
      unfold fallbackEnded. rewrite master_files_app, master_files_artifacts.
      destruct (hlsDir_exists env); reflexivity.
    + rewrite !master_files_app, master_files_preamble, master_files_unexpectedError.
      destruct (hlsDir_exists env); reflexivity.
Qed.

(** C5 (as amended): the master playlist a whole HLS run writes, if it
    writes one, goes to [{outputDir}/{prefix}_master.m3u8] and is, byte for
    byte, the four-line template of section 6 with only the prefix and the
    resolution substituted, the bandwidth being the constant 2800000.  The
    resolution is the string the probe reported when the primary invocation
    ended (the text "Unknown" for a source without a video stream), and
    1280x720 when the primary failed and the fallback ended, whatever was
    probed; when both fail no master playlist is written.  For the prefix
    "lesson", a probed resolution of 1920x1080 and a primary invocation that
    ends, the content is the text below. *)
Theorem C5_master_playlist_of_hls_run (cli : CommandLine) (env : Environment)
    (fuel : nat) (format : Format) (streams : list Stream) (d : JS.number) :
  inputFile cli <> ""%string -> input_exists env = true ->
  JS.le (chunkLength cli) (JS.of_Z 0) = false ->
  ffprobe env = ProbeData format streams ->
  format_duration format = Some d -> JS.truthy d = true ->
  (if opt_hls (options cli) then hls else ans_mode (answers env)) = hls ->
  (exists resolution,
     (resolution = probedResolution streams \/ resolution = "1280x720"%string) /\
     (master_files (snd (main fuel cli env)) = []
      \/ master_files (snd (main fuel cli env))
         = [(masterPlaylistPath cli,
             unlines (specMasterLines (filePrefix cli) resolution))])) /\
  ((forall c, ffmpeg_run env 0 c = End) ->
   master_files (snd (main fuel cli env))
   = [(masterPlaylistPath cli,
       unlines (specMasterLines (filePrefix cli) (probedResolution streams)))]) /\
  (forall m1,
     (forall c, ffmpeg_run env 0 c = Error m1) -> (forall c, ffmpeg_run env 1 c = End) ->
     master_files (snd (main fuel cli env))
     = [(masterPlaylistPath cli,
         unlines (specMasterLines (filePrefix cli) "1280x720"))]) /\
  (forall m1 m2,
     (forall c, ffmpeg_run env 0 c = Error m1) ->
     (forall c, ffmpeg_run env 1 c = Error m2) ->
     master_files (snd (main fuel cli env)) = []) /\
  (find (fun s => String.eqb (codec_type s) "video") streams = None ->
   probedResolution streams = "Unknown"%string) /\
  (opt_prefix (options cli) = "lesson"%string ->
   probedResolution streams = "1920x1080"%string ->
   (forall c, ffmpeg_run env 0 c = End) ->
   master_texts (snd (main fuel cli env))
   = ["#EXTM3U
#EXT-X-VERSION:3
#EXT-X-STREAM-INF:BANDWIDTH=2800000,RESOLUTION=1920x1080
hls/lesson.m3u8
"%string]).
Proof.
  intros Hfile Hexists Hlen Hprobe Hformat Htruthy Hmode.
  destruct (master_files_of_hls_run cli env fuel format streams d
              Hfile Hexists Hlen Hprobe Hformat Htruthy Hmode)
    as (segmentLength & playlistType & Hfiles).
  repeat split.
  - destruct (ffmpeg_run env 0 (primaryCommand cli segmentLength playlistType))
      as [|m1].
    + exists (probedResolution streams). split; [left; reflexivity|].
      right. exact Hfiles.
    + exists "1280x720"%string. split; [right; reflexivity|].
      destruct (ffmpeg_run env 1 (fallbackCommand cli)) as [|m2];
        [right | left]; exact Hfiles.
  - intros Hend. rewrite Hend in Hfiles. exact Hfiles.
  - intros m1 Hfail Hend. rewrite Hfail, Hend in Hfiles. exact Hfiles.
  - intros m1 m2 Hfail1 Hfail2. rewrite Hfail1, Hfail2 in Hfiles. exact Hfiles.
  - intros Hnone. unfold probedResolution. rewrite Hnone. reflexivity.
  - intros Hprefix Hresolution Hend. rewrite Hend in Hfiles.
    rewrite master_texts_of_files, Hfiles. cbn [map snd].
    unfold filePrefix. rewrite Hprefix, Hresolution. reflexivity.
Qed.

(** The lesson run whose primary invocation ends: the 1920x1080 probed is
    the resolution written. *)
Lemma C5_master_playlist_of_hls_run_witness :
  master_texts
    (snd (main 1 (lesson_cli "60" "fast") (lesson_env 125 hls always_end)))
  = ["#EXTM3U
#EXT-X-VERSION:3
#EXT-X-STREAM-INF:BANDWIDTH=2800000,RESOLUTION=1920x1080
hls/lesson.m3u8
"%string].
Proof.
  destruct (C5_master_playlist_of_hls_run (lesson_cli "60" "fast")
              (lesson_env 125 hls always_end) 1
              (lesson_format 125) lesson_streams (JS.of_Z 125))
    as (_ & _ & _ & _ & _ & Hlesson).
  - discriminate.
  - reflexivity.
  - reflexivity.
  - reflexivity.
  - reflexivity.
  - reflexivity.
  - reflexivity.
  - apply Hlesson; [reflexivity | reflexivity | intros c; reflexivity].
Defined.

(** C5 as it was stated fails on two runs.  The lesson run of a source
    probed at 1920x1080 whose primary invocation fails and whose fallback
    ends writes the resolution 1280x720, which is not the text of the
    template for 1920x1080; and the run of a source without a video stream,
    whose resolution is unknown, writes the resolution "Unknown" where the
    default 1280x720 was claimed. *)
Lemma C5_counterexample :
  probedResolution lesson_streams = "1920x1080"%string /\
  master_texts
    (snd (main 1 (lesson_cli "60" "fast")
            (lesson_env 125 hls (fails_at 0 "Conversion failed!"))))
  = ["#EXTM3U
#EXT-X-VERSION:3
#EXT-X-STREAM-INF:BANDWIDTH=2800000,RESOLUTION=1280x720
hls/lesson.m3u8
"%string] /\
  String.eqb
    (unlines (specMasterLines "lesson" "1280x720"))
    (unlines (specMasterLines "lesson" "1920x1080")) = false /\
  find (fun s => String.eqb (codec_type s) "video") audio_streams = None /\
  master_texts
    (snd (main 1 (lesson_cli "60" "fast")
            (with_probe (lesson_env 125 hls always_end)
               (ProbeData (lesson_format 125) audio_streams))))
  = ["#EXTM3U
#EXT-X-VERSION:3
#EXT-X-STREAM-INF:BANDWIDTH=2800000,RESOLUTION=Unknown
hls/lesson.m3u8
"%string].
Proof. repeat split. Qed.

(** ** Runs that stop before processing *)

(** The configuration step of [run] never fails and records nothing. *)
Lemma config_chosen (cli : CommandLine) (env : Environment) :
  exists cfg,
    mode_of cfg = (if opt_hls (options cli) then hls else ans_mode (answers env)) /\
    forall tr,
      (if opt_hls (options cli)
       then ret (HlsConfig "ts"
                   (JS.or_else (JS.parseInt10 (opt_hlsSegment (options cli))) (JS.of_Z 4))
                   (JS.str_or (opt_hlsType (options cli)) "vod"))
       else setupOutput env) tr = (Ok cfg, tr).
Proof.
  destruct (opt_hls (options cli)).
  - eexists. split; [|intros tr; reflexivity]. reflexivity.
  - unfold setupOutput.
    destruct (ans_mode (answers env)); [| destruct (ans_extension (answers env)) |];
      (eexists; split; [|intros tr; reflexivity]); reflexivity.
Qed.

Lemma main_no_input (cli : CommandLine) (env : Environment) (fuel : nat) :
  inputFile cli = ""%string ->
  main fuel cli env
  = (Exit 1, [Log error "No input file specified. Use --help for usage information."]).
Proof.
  intros Hfile. unfold main, run, try_catch, bind at 1, validateInput, bind at 1, when.
  rewrite Hfile. reflexivity.
Qed.

Lemma main_input_not_found (cli : CommandLine) (env : Environment) (fuel : nat) :
  inputFile cli <> ""%string -> input_exists env = false ->
  main fuel cli env
  = (Exit 1, [Log error ("Input file not found: " ++ dquote ++ inputFile cli ++ dquote)]).
Proof.
  intros Hfile Hexists.
  unfold main, run, try_catch, bind at 1, validateInput, bind at 1, when.
  destruct (String.eqb_spec (inputFile cli) ""); [contradiction|].
  cbn [ret]. unfold bind at 1. rewrite Hexists. reflexivity.
Qed.

Lemma main_length_rejected (cli : CommandLine) (env : Environment) (fuel : nat) :
  inputFile cli <> ""%string -> input_exists env = true ->
  JS.le (chunkLength cli) (JS.of_Z 0) = true ->
  main fuel cli env
  = (Exit 1, [Log error "Chunk length must be greater than 0 seconds."]).
Proof.
  intros Hfile Hexists Hlen.
  unfold main, run, try_catch, bind at 1, validateInput, bind at 1, when.
  destruct (String.eqb_spec (inputFile cli) ""); [contradiction|].
  cbn [ret]. unfold bind at 1. rewrite Hexists. cbn [negb ret].
  unfold bind at 1. rewrite Hlen. reflexivity.
Qed.

Lemma main_probe_failed (cli : CommandLine) (env : Environment) (fuel : nat)
    (message : string) :
  inputFile cli <> ""%string -> input_exists env = true ->
  JS.le (chunkLength cli) (JS.of_Z 0) = false ->
  ffprobe env = ProbeFailed message ->
  main fuel cli env = (Exit 1, presetWarning cli ++ unexpectedErrorEvents message).
Proof.
  intros Hfile Hexists Hlen Hprobe.
  destruct (config_chosen cli env) as (cfg & _ & Hcfg).
  unfold main, run, try_catch, bind at 1.
  rewrite validateInput_passes by assumption.
  unfold bind at 1. rewrite Hcfg.
  unfold bind at 1, getVideoMetadata. rewrite Hprobe. unfold throw.
  rewrite onUnexpectedError_events by exact cli. reflexivity.
Qed.

Lemma main_no_duration (cli : CommandLine) (env : Environment) (fuel : nat)
    (format : Format) (streams : list Stream) :
  inputFile cli <> ""%string -> input_exists env = true ->
  JS.le (chunkLength cli) (JS.of_Z 0) = false ->
  ffprobe env = ProbeData format streams ->
  match format_duration format with
  | Some d => JS.truthy d = false
  | None => True
  end ->
  main fuel cli env = (Exit 1, presetWarning cli ++ [noDurationError]).
Proof.
  intros Hfile Hexists Hlen Hprobe Hduration.
  destruct (config_chosen cli env) as (cfg & _ & Hcfg).
  unfold main, run, try_catch, bind at 1.
  rewrite validateInput_passes by assumption.
  unfold bind at 1. rewrite Hcfg.
  unfold bind at 1, getVideoMetadata. rewrite Hprobe. unfold ret at 1.
  unfold probedMetadata at 1. cbn [duration].
  destruct (format_duration format) as [d|]; [rewrite Hduration|]; reflexivity.
Qed.

(** ** The loop against an arbitrary engine *)

Section AnyEngine.

Variable cli : CommandLine.
Variable env : Environment.
Variable mode : Mode.
Variable extension : string.

(** Whatever the engine answers, the loop started at chunk [i] starts the
    chunks [i], [i + 1], ... in order, each once, and stops at the first
    failure, at the end of the plan, or when the bound on iterations is
    used up. *)
Lemma chunkLoop_initial_segment (fuel : nat) :
  forall (i : nat) (tr : Trace) (n : Z),
  exists (m : nat) (r : Result unit) (extra : Trace),
    chunkLoop cli env fuel (JS.of_Z n) mode extension i tr = (r, tr ++ extra) /\
    invocations extra = map (chunkCommand cli mode extension) (seq i m) /\
    (Z.of_nat i < n -> Z.of_nat (i + m) <= n)%Z /\
    ((n <= Z.of_nat i)%Z -> m = 0%nat) /\
    match r with
    | Ok _ => (n <= Z.of_nat (i + m))%Z
    | Throw _ => (1 <= m)%nat
    | Exit _ => False
    | OutOfFuel => m = fuel
    end.
Proof.
  induction fuel as [|fuel IH]; intros i tr n.
  - exists 0%nat, OutOfFuel, []. cbn [chunkLoop]. unfold out_of_fuel.
    rewrite app_nil_r. repeat split; try reflexivity; lia.
  - rewrite chunkLoop_step, lt_of_nat_of_Z.
    destruct (Z.ltb_spec (Z.of_nat i) n) as [Hlt|Hge].
    + destruct (ffmpeg_run env (List.length (invocations tr))
                  (chunkCommand cli mode extension i)) as [|message].
      * destruct (IH (S i) (tr ++ completedEvents cli mode extension i) n)
          as (m & r & extra & Hrun & Hinv & Hin & Hout & Hres).
        exists (S m), r, (completedEvents cli mode extension i ++ extra).
        rewrite Hrun, <- app_assoc. split; [reflexivity|].
        split; [rewrite invocations_app, invocations_completed, Hinv; reflexivity|].
        split; [intros _; destruct (Z.ltb_spec (Z.of_nat (S i)) n);
                [specialize (Hin ltac:(lia)) | specialize (Hout ltac:(lia))]; lia|].
        split; [lia|].
        destruct r; try assumption; try lia.
      * exists 1%nat, (Throw message), (failedEvents cli mode extension i message).
        split; [reflexivity|]. split; [reflexivity|].
        split; [lia|]. split; [lia|]. lia.
    + exists 0%nat, (Ok tt), []. rewrite app_nil_r.
      split; [reflexivity|]. split; [reflexivity|].
      split; [lia|]. split; [reflexivity|]. lia.
Qed.

End AnyEngine.

(** X5: in a standard mode, whatever the engine answers, the jobs started
    are an initial segment of the plan, in order and each once: all of it
    when the run returns, a non-empty part of it when the run throws. *)
Theorem X5_jobs_form_initial_segment (cli : CommandLine) (env : Environment)
    (fuel : nat) (cfg : OutputConfig) (md : Metadata) (tr0 : Trace) (d : Q) (c : Z) :
  mode_of cfg <> hls ->
  chunkLength cli = JS.of_Z c -> (0 < c)%Z ->
  (Z.to_nat (Qceiling (d / inject_Z c)) < fuel)%nat ->
  exists (m : nat) (r : Result unit) (tr : Trace),
    processChunks cli env fuel (JS.Num d) cfg md tr0 = (r, tr0 ++ tr) /\
    (m <= Z.to_nat (Qceiling (d / inject_Z c)))%nat /\
    planned_jobs tr = map (fun i => job (Z.of_nat i * c) c) (seq 0 m) /\
    ((r = Ok tt /\ m = Z.to_nat (Qceiling (d / inject_Z c))) \/
     (exists message, r = Throw message /\ (1 <= m)%nat)).
Proof.
  intros Hmode Hc Hpos Hfuel.
  rewrite processChunks_standard by exact Hmode.
  rewrite Hc, ceil_div_of_Z by lia.
  destruct (chunkLoop_initial_segment cli env (mode_of cfg) (extension_of cfg) fuel
              0 tr0 (Qceiling (d / inject_Z c)))
    as (m & r & extra & Hrun & Hinv & Hin & Hout & Hres).
  rewrite Hrun.
  assert (Hm : (m <= Z.to_nat (Qceiling (d / inject_Z c)))%nat).
  { destruct (Z.ltb_spec 0 (Qceiling (d / inject_Z c))) as [Hlt|Hge];
      [specialize (Hin Hlt) | specialize (Hout Hge)]; lia. }
  assert (Hjobs : forall tail, invocations tail = [] ->
            planned_jobs (extra ++ tail)
            = map (fun i => job (Z.of_nat i * c) c) (seq 0 m)).
  { intros tail Htail. unfold planned_jobs.
    rewrite invocations_app, Hinv, Htail, app_nil_r, map_map.
    apply map_ext. intros i. apply job_of_chunkCommand. exact Hc. }
  destruct r as [[]|message|code|].
  - exists m, (Ok tt), (extra ++ [processingComplete]).
    rewrite app_assoc. split; [reflexivity|]. split; [exact Hm|].
    split; [apply Hjobs; reflexivity|]. left. split; [reflexivity|]. cbn in Hres. lia.
  - exists m, (Throw message), extra. split; [reflexivity|]. split; [exact Hm|].
    split; [rewrite <- (app_nil_r extra); apply Hjobs; reflexivity|].
    right. exists message. split; [reflexivity | exact Hres].
  - contradiction.
  - lia.
Qed.

(** A run whose third invocation fails has started the first three jobs. *)
Lemma X5_jobs_form_initial_segment_witness :
  exists (m : nat) (r : Result unit) (tr : Trace),
    processChunks (lesson_cli "60" "fast")
      (lesson_env 300 copy (fails_at 2 "Conversion failed!")) 6
      (JS.Num 300) (CopyConfig "mp4") empty_metadata [] = (r, [] ++ tr) /\
    (m <= 5)%nat /\
    planned_jobs tr = map (fun i => job (Z.of_nat i * 60) 60) (seq 0 m).
Proof.
  destruct (X5_jobs_form_initial_segment (lesson_cli "60" "fast")
              (lesson_env 300 copy (fails_at 2 "Conversion failed!")) 6
              (CopyConfig "mp4") empty_metadata [] 300 60)
    as (m & r & tr & Hrun & Hm & Hjobs & _).
  - discriminate.
  - reflexivity.
  - lia.
  - vm_compute. lia.
  - exists m, r, tr. split; [exact Hrun|]. split; [exact Hm | exact Hjobs].
Defined.

(** ** What a stopped run leaves behind *)

Lemma presetWarning_quiet (cli : CommandLine) (tail : Trace) :
  invocations (presetWarning cli ++ tail) = invocations tail /\
  written (presetWarning cli ++ tail) = written tail /\
  existsb is_mkdir (presetWarning cli ++ tail) = existsb is_mkdir tail.
Proof.
  unfold presetWarning.
  destruct (JS.array_includes validPresets (qualityPreset cli)); repeat split.
Qed.

Lemma unexpectedError_quiet (message : string) :
  invocations (unexpectedErrorEvents message) = [] /\
  written (unexpectedErrorEvents message) = [] /\
  existsb is_mkdir (unexpectedErrorEvents message) = false.
Proof.
  unfold unexpectedErrorEvents.
  destruct (JS.includes "ffmpeg" message || JS.includes "ffprobe" message)%bool;
    repeat split.
Qed.

(** X2: the input file is the first thing [validateInput] checks.  When the
    input-file argument is the empty string (given as ['']; a command line
    without the argument never reaches [run]), or names a file that does not
    exist, the run exits with status 1 after the single matching error line,
    whatever the chunk length, the preset and the mode are: no preset
    warning, no probe, nothing created. *)
Theorem X2_input_file_checked_first (cli : CommandLine) (env : Environment)
    (fuel : nat) :
  inputFile cli = ""%string \/ input_exists env = false ->
  exists message,
    main fuel cli env = (Exit 1, [Log error message]) /\
    (inputFile cli = ""%string ->
     message = "No input file specified. Use --help for usage information."%string) /\
    (inputFile cli <> ""%string ->
     message = ("Input file not found: " ++ dquote ++ inputFile cli ++ dquote)%string).
Proof.
  intros Hbad. destruct (String.eqb_spec (inputFile cli) "") as [Hnone|Hsome].
  - eexists. split; [apply main_no_input; exact Hnone|].
    split; [reflexivity | contradiction].
  - destruct Hbad as [Hnone|Hmissing]; [contradiction|].
    eexists. split; [apply main_input_not_found; assumption|].
    split; [contradiction | reflexivity].
Qed.

(** A missing file wins over a chunk length of zero and an unknown preset. *)
Lemma X2_input_file_checked_first_witness :
  exists message,
    main 1 (lesson_cli "0" "turbo") (without_input (lesson_env 125 copy always_end))
    = (Exit 1, [Log error message]) /\
    message = ("Input file not found: " ++ dquote ++ "video.mp4" ++ dquote)%string.
Proof.
  destruct (X2_input_file_checked_first (lesson_cli "0" "turbo")
              (without_input (lesson_env 125 copy always_end)) 1)
    as (message & Hrun & _ & Hmessage).
  - right. reflexivity.
  - exists message. split; [exact Hrun | apply Hmessage; discriminate].
Defined.

(** X3: when the probe fails, or reports no usable duration (none, zero or
    [NaN]), the run exits with status 1 before the output directory is
    touched: no directory is made, no file is written and no invocation is
    started.  A probe failure goes through the [catch] block of [run]; a
    missing duration gets its own error line. *)
Theorem X3_no_output_without_duration (cli : CommandLine) (env : Environment)
    (fuel : nat) :
  inputFile cli <> ""%string -> input_exists env = true ->
  JS.le (chunkLength cli) (JS.of_Z 0) = false ->
  match ffprobe env with
  | ProbeFailed _ => True
  | ProbeData format _ =>
      match format_duration format with
      | Some d => JS.truthy d = false
      | None => True
      end
  end ->
  main fuel cli env
  = (Exit 1,
     presetWarning cli
     ++ match ffprobe env with
        | ProbeFailed message => unexpectedErrorEvents message
        | ProbeData _ _ => [noDurationError]
        end) /\
  invocations (snd (main fuel cli env)) = [] /\
  written (snd (main fuel cli env)) = [] /\
  existsb is_mkdir (snd (main fuel cli env)) = false.
Proof.
  intros Hfile Hexists Hlen Hprobe.
  destruct (ffprobe env) as [message|format streams] eqn:Hanswer.
  - rewrite (main_probe_failed cli env fuel message) by assumption. cbn [snd].
    destruct (presetWarning_quiet cli (unexpectedErrorEvents message)) as (-> & -> & ->).
    destruct (unexpectedError_quiet message) as (-> & -> & ->). repeat split.
  - rewrite (main_no_duration cli env fuel format streams) by assumption. cbn [snd].
    destruct (presetWarning_quiet cli [noDurationError]) as (-> & -> & ->).
    repeat split.
Qed.

(** A source whose duration is reported as zero. *)
Lemma X3_no_output_without_duration_witness :
  main 4 (lesson_cli "60" "fast")
    (with_probe (lesson_env 125 copy always_end)
       (ProbeData (lesson_format 0) lesson_streams))
  = (Exit 1, [noDurationError]).
Proof.
  refine (proj1 (X3_no_output_without_duration (lesson_cli "60" "fast")
                   (with_probe (lesson_env 125 copy always_end)
                      (ProbeData (lesson_format 0) lesson_streams)) 4 _ _ _ _)).
  - discriminate.
  - reflexivity.
  - reflexivity.
  - reflexivity.
Defined.

(** ** A failing chunk, over the whole run *)

Lemma le_of_Z (a b : Z) : JS.le (JS.of_Z a) (JS.of_Z b) = (a <=? b)%Z.
Proof.
  unfold JS.le, JS.of_Z, Qle_bool, inject_Z; simpl. rewrite !Z.mul_1_r. reflexivity.
Qed.

Lemma truthy_positive (q : Q) : 0 < q -> JS.truthy (JS.Num q) = true.
Proof.
  intros Hq. unfold JS.truthy, JS.Qis_zero.
  destruct (Qeq_bool q 0) eqn:Hzero; [|reflexivity].
  apply Qeq_bool_eq in Hzero. rewrite Hzero in Hq. discriminate.
Qed.

Lemma written_app (tr1 tr2 : Trace) : written (tr1 ++ tr2) = written tr1 ++ written tr2.
Proof.
  induction tr1 as [|e tr1 IH]; [reflexivity|].
  destruct e; cbn [app written]; rewrite IH; reflexivity.
Qed.

Lemma written_preamble (cli : CommandLine) (env : Environment) :
  written (preamble cli env)
  = [(metadataPath cli,
      MetadataJson (inputFile cli) (chunkLength cli) (qualityPreset cli) (outputDir cli))].
Proof.
  unfold preamble, presetWarning, outputDirectoryEvents.
  destruct (JS.array_includes validPresets (qualityPreset cli));
    destruct (outputDir_exists env); reflexivity.
Qed.

Lemma written_completed_range (cli : CommandLine) (mode : Mode) (extension : string)
    (i k : nat) :
  written (flat_map (completedEvents cli mode extension) (seq i k)) = [].
Proof.
  revert i; induction k as [|k IH]; intros i; [reflexivity|].
  cbn [seq flat_map]. rewrite written_app, IH, app_nil_r.
  unfold completedEvents. destruct (showProgress cli); reflexivity.
Qed.

(** X4: over a whole standard run, when chunk [k] is the first whose
    invocation fails, the process exits with status 1 through the [catch]
    block: the chunks before [k] were completed and are left as they are,
    chunk [k] was started once, no later chunk is started, and the only
    file the driver itself has written is the metadata file. *)
Theorem X4_failed_chunk_ends_run (cli : CommandLine) (env : Environment)
    (fuel : nat) (format : Format) (streams : list Stream) (dq : Q) (c : Z)
    (k : nat) (message : string) :
  inputFile cli <> ""%string -> input_exists env = true ->
  opt_hls (options cli) = false -> ans_mode (answers env) <> hls ->
  ffprobe env = ProbeData format streams ->
  format_duration format = Some (JS.Num dq) -> 0 < dq ->
  chunkLength cli = JS.of_Z c -> (0 < c)%Z ->
  (Z.of_nat k < Qceiling (dq / inject_Z c))%Z -> (k < fuel)%nat ->
  (forall j cmd, (j < k)%nat -> ffmpeg_run env j cmd = End) ->
  (forall cmd, ffmpeg_run env k cmd = Error message) ->
  exists cfg,
    mode_of cfg = ans_mode (answers env) /\
    main fuel cli env
    = (Exit 1,
       preamble cli env
       ++ flat_map (completedEvents cli (mode_of cfg) (extension_of cfg)) (seq 0 k)
       ++ failedEvents cli (mode_of cfg) (extension_of cfg) k message
       ++ unexpectedErrorEvents message) /\
    invocations (snd (main fuel cli env))
    = map (chunkCommand cli (mode_of cfg) (extension_of cfg)) (seq 0 (S k)) /\
    written (snd (main fuel cli env))
    = [(metadataPath cli,
        MetadataJson (inputFile cli) (chunkLength cli) (qualityPreset cli)
          (outputDir cli))].
Proof.
  intros Hfile Hexists Hflag Hmode Hprobe Hformat Hdq Hc Hpos Hk Hfuel Hend Hfail.
  assert (Hlen : JS.le (chunkLength cli) (JS.of_Z 0) = false)
    by (rewrite Hc, le_of_Z; apply Z.leb_gt; exact Hpos).
  destruct (main_reaches_processChunks cli env format streams (JS.Num dq)
              Hfile Hexists Hlen Hprobe Hformat (truthy_positive dq Hdq))
    as (cfg & Hcfg & Hmain).
  rewrite Hflag in Hcfg. exists cfg. split; [exact Hcfg|].
  assert (Hrun : main fuel cli env
                 = (Exit 1,
                    preamble cli env
                    ++ flat_map (completedEvents cli (mode_of cfg) (extension_of cfg))
                         (seq 0 k)
                    ++ failedEvents cli (mode_of cfg) (extension_of cfg) k message
                    ++ unexpectedErrorEvents message)).
  { rewrite Hmain. unfold try_catch.
    rewrite processChunks_standard by (rewrite Hcfg; exact Hmode).
    rewrite Hc, ceil_div_of_Z by lia.
    rewrite (chunkLoop_fails cli env _ _ k 0 fuel _ _ message);
      [| exact Hk | exact Hfuel
       | intros j Hj; rewrite invocations_preamble; apply Hend; exact Hj | ].
    - rewrite onUnexpectedError_events by exact cli.
      rewrite <- !app_assoc. reflexivity.
    - rewrite invocations_preamble. apply Hfail. }
  rewrite Hrun. cbn [snd]. split; [reflexivity|]. split.
  - rewrite !invocations_app, invocations_preamble, invocations_completed_range.
    destruct (unexpectedError_quiet message) as (-> & _).
    rewrite seq_S, map_app. rewrite app_nil_r. reflexivity.
  - rewrite !written_app, written_preamble, written_completed_range.
    destruct (unexpectedError_quiet message) as (_ & -> & _). reflexivity.
Qed.

(** A 125-second source whose second chunk fails. *)
Lemma X4_failed_chunk_ends_run_witness :
  fst (main 4 (lesson_cli "60" "fast")
         (lesson_env 125 copy (fails_at 1 "Conversion failed!"))) = Exit 1 /\
  List.length
    (invocations
       (snd (main 4 (lesson_cli "60" "fast")
               (lesson_env 125 copy (fails_at 1 "Conversion failed!"))))) = 2%nat.
Proof.
  destruct (X4_failed_chunk_ends_run (lesson_cli "60" "fast")
              (lesson_env 125 copy (fails_at 1 "Conversion failed!")) 4
              (lesson_format 125) lesson_streams 125 60 1 "Conversion failed!")
    as (cfg & _ & Hrun & Hinv & _).
  - discriminate.
  - reflexivity.
  - reflexivity.
  - discriminate.
  - reflexivity.
  - reflexivity.
  - reflexivity.
  - reflexivity.
  - lia.
  - vm_compute. reflexivity.
  - lia.
  - intros j cmd Hj. assert (j = 0%nat) as -> by lia. reflexivity.
  - intros cmd. reflexivity.
  - rewrite Hinv, Hrun. split; [reflexivity|]. rewrite length_map, length_seq.
    reflexivity.
Defined.

(** ** Output files never collide *)

Local Open Scope string_scope.





Local Close Scope string_scope.


(** ** The progress bar *)

Lemma div_of_Z (a b : Z) :
  b <> 0%Z -> JS.div (JS.of_Z a) (JS.of_Z b) = JS.Num (inject_Z a / inject_Z b).
Proof.
  intros Hb. unfold JS.div, JS.of_Z. rewrite Qis_zero_inject.
  destruct (Z.eqb_spec b 0); [contradiction | reflexivity].
Qed.

(** A count that is an integer is taken as it is. *)
Lemma repeat_count_integer (x : Q) (z : Z) :
  x == inject_Z z -> Progress.repeat_count (JS.Num x) = Some z.
Proof.
  intros Hx. unfold Progress.repeat_count.
  destruct (JS.Qlt_bool x 0); rewrite Hx; [rewrite Qceiling_Z | rewrite Qfloor_Z];
    reflexivity.
Qed.

Lemma repeat_integer (s : string) (x : Q) (z : Z) :
  x == inject_Z z ->
  Progress.repeat s (JS.Num x)
  = if (z <? 0)%Z then None else Some (JS.repeat_string s (Z.to_nat z)).
Proof.
  intros Hx. unfold Progress.repeat. rewrite (repeat_count_integer x z Hx). reflexivity.
Qed.

(** The bar of an integer percentage: [p / 5] filled cells out of twenty,
    and a [RangeError] outside [0 .. 104]. *)
Lemma progressBar_integer (p : Z) :
  Progress.progressBar (JS.of_Z p)
  = if ((0 <=? p) && (p <? 105))%Z
    then Some (JS.repeat_string Progress.filled (Z.to_nat (p / 5))
               ++ JS.repeat_string Progress.blank (Z.to_nat (20 - p / 5)))%string
    else None.
Proof.
  unfold Progress.progressBar. rewrite div_of_Z by discriminate.
  unfold Progress.floor. rewrite <- Zdiv_Qdiv.
  unfold JS.of_Z at 1. rewrite (repeat_integer _ _ (p / 5)) by reflexivity.
  unfold Progress.sub, JS.of_Z.
  rewrite (repeat_integer _ _ (20 - p / 5))
    by (unfold Z.sub; rewrite inject_Z_plus, inject_Z_opp; reflexivity).
  destruct (Z.leb_spec 0 p); destruct (Z.ltb_spec p 105); cbn [andb].
  - replace (p / 5 <? 0)%Z with false
      by (symmetry; apply Z.ltb_ge; apply Z.div_pos; lia).
    replace (20 - p / 5 <? 0)%Z with false; [reflexivity|].
    symmetry. apply Z.ltb_ge.
    assert (p / 5 < 21)%Z by (apply Z.div_lt_upper_bound; lia). lia.
  - replace (p / 5 <? 0)%Z with false
      by (symmetry; apply Z.ltb_ge; apply Z.div_pos; lia).
    replace (20 - p / 5 <? 0)%Z with true; [reflexivity|].
    symmetry. apply Z.ltb_lt.
    assert (21 <= p / 5)%Z by (apply Z.div_le_lower_bound; lia). lia.
  - replace (p / 5 <? 0)%Z with true; [reflexivity|].
    symmetry. apply Z.ltb_lt. apply Z.div_lt_upper_bound; lia.
  - lia.
Qed.

Lemma stepPercentage_integers (current total : Z) :
  total <> 0%Z ->
  Progress.stepPercentage (JS.of_Z current) (JS.of_Z total)
  = JS.of_Z (Qfloor (inject_Z current / inject_Z total * inject_Z 100 + (1 # 2))).
Proof.
  intros Htotal. unfold Progress.stepPercentage. rewrite div_of_Z by exact Htotal.
  reflexivity.
Qed.

(** X7: for the steps of the chunk loop, [1 <= current <= total], the line
    of [log.step] can always be built: the percentage is an integer between
    0 and 100, the bar has [percentage / 5] filled cells and twenty cells in
    all, and the last step shows 100 percent and a full bar. *)
Theorem X7_step_bar_within_loop (current total : Z) :
  (1 <= current <= total)%Z ->
  exists p,
    Progress.stepPercentage (JS.of_Z current) (JS.of_Z total) = JS.of_Z p /\
    (0 <= p <= 100)%Z /\
    Progress.stepBar (JS.of_Z current) (JS.of_Z total)
    = Some (JS.repeat_string Progress.filled (Z.to_nat (p / 5))
            ++ JS.repeat_string Progress.blank (Z.to_nat (20 - p / 5)))%string /\
    (Z.to_nat (p / 5) + Z.to_nat (20 - p / 5) = 20)%nat /\
    (current = total -> p = 100%Z).
Proof.
  intros Hrange.
  set (x := inject_Z current / inject_Z total * inject_Z 100 + (1 # 2)).
  assert (Htotal : 0 < inject_Z total)
    by (change 0 with (inject_Z 0); rewrite <- Zlt_Qlt; lia).
  assert (Hratio : 0 < inject_Z current / inject_Z total
                   /\ inject_Z current / inject_Z total <= 1).
  { split.
    - apply Qlt_shift_div_l; [exact Htotal|]. rewrite Qmult_0_l.
      change 0 with (inject_Z 0). rewrite <- Zlt_Qlt. lia.
    - apply Qle_shift_div_r; [exact Htotal|]. rewrite Qmult_1_l.
      rewrite <- Zle_Qle. lia. }
  assert (Hx : (1 # 2) < x /\ x <= 100 + (1 # 2)).
  { unfold x. change (inject_Z 100) with 100. destruct Hratio. split; lra. }
  assert (Hp : (0 <= Qfloor x <= 100)%Z).
  { pose proof (Qfloor_le x) as Hle. pose proof (Qlt_floor x) as Hlt.
    destruct Hx as (Hlo & Hhi). split.
    - assert (H : inject_Z (-1) < inject_Z (Qfloor x)).
      { rewrite inject_Z_plus in Hlt. change (inject_Z 1) with 1 in Hlt.
        change (inject_Z (-1)) with (-1). lra. }
      rewrite <- Zlt_Qlt in H. lia.
    - assert (H : inject_Z (Qfloor x) < inject_Z 101).
      { change (inject_Z 101) with 101. lra. }
      rewrite <- Zlt_Qlt in H. lia. }
  exists (Qfloor x).
  assert (Hstep : Progress.stepPercentage (JS.of_Z current) (JS.of_Z total)
                  = JS.of_Z (Qfloor x))
    by (apply stepPercentage_integers; lia).
  split; [exact Hstep|]. split; [exact Hp|]. split; [|split].
  - unfold Progress.stepBar. rewrite Hstep, progressBar_integer.
    replace ((0 <=? Qfloor x) && (Qfloor x <? 105))%Z with true; [reflexivity|].
    symmetry. apply andb_true_iff. split; [apply Z.leb_le | apply Z.ltb_lt]; lia.
  - assert (0 <= Qfloor x / 5 <= 20)%Z.
    { split; [apply Z.div_pos; lia|]. apply Z.div_le_upper_bound; lia. }
    lia.
  - intros ->. unfold x.
    assert (Hone : inject_Z total / inject_Z total == 1)
      by (apply Qmult_inv_r; intros E; rewrite E in Htotal; discriminate).
    rewrite Hone. reflexivity.
Qed.

(** The second of three chunks shows 67 percent, thirteen cells filled. *)
Lemma X7_step_bar_within_loop_witness :
  Progress.stepPercentage (JS.of_Z 2) (JS.of_Z 3) = JS.of_Z 67 /\
  Progress.stepBar (JS.of_Z 2) (JS.of_Z 3)
  = Some (JS.repeat_string Progress.filled 13 ++ JS.repeat_string Progress.blank 7)%string.
Proof.
  destruct (X7_step_bar_within_loop 2 3 ltac:(lia)) as (p & Hp & _ & Hbar & _).
  rewrite Hbar. rewrite Hp. assert (p = 67%Z) as ->.
  { assert (H : JS.of_Z p = JS.of_Z 67) by (rewrite <- Hp; reflexivity).
    injection H as H. exact H. }
  split; reflexivity.
Defined.

(** X8: the [progress] handler of [processHLSStream] prints nothing for a
    percent of zero or [NaN], and a twenty-cell bar for a percent between 0
    and 104.5; from 104.5 on, and below -0.5, building the bar throws a
    [RangeError], since one of the two repeat counts is negative. *)
Theorem X8_progress_handler_bounds (q : Q) :
  Progress.onProgress JS.NaN = Progress.Nothing /\
  (q == 0 -> Progress.onProgress (JS.Num q) = Progress.Nothing) /\
  (0 < q -> q < 209 # 2 ->
   exists k, (k <= 20)%nat /\
     Progress.onProgress (JS.Num q)
     = Progress.Bar (JS.repeat_string Progress.filled k
                     ++ JS.repeat_string Progress.blank (20 - k))%string) /\
  (209 # 2 <= q -> Progress.onProgress (JS.Num q) = Progress.RangeError) /\
  (q < - (1 # 2) -> Progress.onProgress (JS.Num q) = Progress.RangeError).
Proof.
  assert (Htruthy : ~ q == 0 -> JS.truthy (JS.Num q) = true).
  { intros Hq. unfold JS.truthy, JS.Qis_zero.
    destruct (Qeq_bool q 0) eqn:Hzero; [|reflexivity].
    apply Qeq_bool_eq in Hzero. contradiction. }
  assert (Hbar : ~ q == 0 ->
            Progress.onProgress (JS.Num q)
            = match Progress.progressBar (JS.of_Z (Qfloor (q + (1 # 2)))) with
              | Some bar => Progress.Bar bar
              | None => Progress.RangeError
              end).
  { intros Hq. unfold Progress.onProgress. rewrite (Htruthy Hq). reflexivity. }
  pose proof (Qfloor_le (q + (1 # 2))) as Hle.
  pose proof (Qlt_floor (q + (1 # 2))) as Hlt.
  rewrite inject_Z_plus in Hlt. change (inject_Z 1) with 1 in Hlt.
  split; [reflexivity|]. split; [|split; [|split]].
  - intros Hq. unfold Progress.onProgress, JS.truthy, JS.Qis_zero.
    rewrite Hq. reflexivity.
  - intros Hpos Hhigh.
    rewrite Hbar by (intros E; lra).
    rewrite progressBar_integer.
    assert (Hp : (0 <= Qfloor (q + (1 # 2)) < 105)%Z).
    { split.
      - assert (H : inject_Z (-1) < inject_Z (Qfloor (q + (1 # 2))))
          by (change (inject_Z (-1)) with (-1); lra).
        rewrite <- Zlt_Qlt in H. lia.
      - assert (H : inject_Z (Qfloor (q + (1 # 2))) < inject_Z 105)
          by (change (inject_Z 105) with 105; lra).
        rewrite <- Zlt_Qlt in H. exact H. }
    replace ((0 <=? Qfloor (q + (1 # 2))) && (Qfloor (q + (1 # 2)) <? 105))%Z
      with true
      by (symmetry; apply andb_true_iff; split; [apply Z.leb_le | apply Z.ltb_lt]; lia).
    exists (Z.to_nat (Qfloor (q + (1 # 2)) / 5)).
    assert (0 <= Qfloor (q + (1 # 2)) / 5 <= 20)%Z.
    { split; [apply Z.div_pos; lia|].
      assert (Qfloor (q + (1 # 2)) / 5 < 21)%Z
        by (apply Z.div_lt_upper_bound; lia).
      lia. }
    split; [lia|].
    replace (Z.to_nat (20 - Qfloor (q + (1 # 2)) / 5))
      with (20 - Z.to_nat (Qfloor (q + (1 # 2)) / 5))%nat by lia.
    reflexivity.
  - intros Hhigh.
    rewrite Hbar by (intros E; lra).
    rewrite progressBar_integer.
    assert (Hp : (105 <= Qfloor (q + (1 # 2)))%Z).
    { assert (H : inject_Z 104 < inject_Z (Qfloor (q + (1 # 2))))
        by (change (inject_Z 104) with 104; lra).
      rewrite <- Zlt_Qlt in H. lia. }
    replace (Qfloor (q + (1 # 2)) <? 105)%Z with false
      by (symmetry; apply Z.ltb_ge; lia).
    rewrite andb_false_r. reflexivity.
  - intros Hlow.
    rewrite Hbar by (intros E; lra).
    rewrite progressBar_integer.
    assert (Hp : (Qfloor (q + (1 # 2)) < 0)%Z).
    { assert (H : inject_Z (Qfloor (q + (1 # 2))) < inject_Z 0)
        by (change (inject_Z 0) with 0; lra).
      rewrite <- Zlt_Qlt in H. exact H. }
    replace (0 <=? Qfloor (q + (1 # 2)))%Z with false
      by (symmetry; apply Z.leb_gt; lia).
    reflexivity.
Qed.

(** ** HLS runs *)


Lemma invocations_hlsOutcome (cli : CommandLine) (env : Environment) (n : nat)
    (segmentLength : JS.number) (playlistType : string) (md : Metadata) :
  invocations (snd (hlsOutcome cli env n segmentLength playlistType md))
  = match ffmpeg_run env n (primaryCommand cli segmentLength playlistType) with
    | End => [primaryCommand cli segmentLength playlistType]
    | Error _ => [primaryCommand cli segmentLength playlistType; fallbackCommand cli]
    end.
Proof.
  unfold hlsOutcome.
  destruct (ffmpeg_run env n (primaryCommand cli segmentLength playlistType));
    [| destruct (ffmpeg_run env (S n) (fallbackCommand cli)) ];
    cbn [snd]; rewrite !invocations_app; destruct (hlsDir_exists env); reflexivity.
Qed.






(** X11: whatever the engine answers, a whole HLS run starts the primary
    invocation, then the fallback exactly when the primary failed, and
    nothing else; neither of the two seeks into the source or limits the
    duration. *)
Theorem X11_hls_one_or_two_invocations (cli : CommandLine) (env : Environment)
    (fuel : nat) (format : Format) (streams : list Stream) (d : JS.number) :
  inputFile cli <> ""%string -> input_exists env = true ->
  JS.le (chunkLength cli) (JS.of_Z 0) = false ->
  ffprobe env = ProbeData format streams ->
  format_duration format = Some d -> JS.truthy d = true ->
  (if opt_hls (options cli) then hls else ans_mode (answers env)) = hls ->
  exists segmentLength playlistType,
    invocations (snd (main fuel cli env))
    = match ffmpeg_run env 0 (primaryCommand cli segmentLength playlistType) with
      | End => [primaryCommand cli segmentLength playlistType]
      | Error _ => [primaryCommand cli segmentLength playlistType; fallbackCommand cli]
      end /\
    planned_jobs (snd (main fuel cli env))
    = repeat (None, None) (List.length (invocations (snd (main fuel cli env)))).
Proof.
  intros Hfile Hexists Hlen Hprobe Hformat Htruthy Hmode.
  destruct (main_reaches_processChunks cli env format streams d
              Hfile Hexists Hlen Hprobe Hformat Htruthy)
    as (cfg & Hcfg & Hmain).
  rewrite Hmode in Hcfg.
  destruct cfg as [e|e|e segmentLength playlistType]; try discriminate.
  exists segmentLength, playlistType.
  assert (Hinv : invocations (snd (main fuel cli env))
                 = match ffmpeg_run env 0 (primaryCommand cli segmentLength playlistType) with
                   | End => [primaryCommand cli segmentLength playlistType]
                   | Error _ =>
                       [primaryCommand cli segmentLength playlistType; fallbackCommand cli]
                   end).
  { rewrite Hmain. unfold try_catch. cbn [processChunks].
    rewrite processHLSStream_outcome, invocations_preamble. cbn [List.length].
    rewrite <- invocations_hlsOutcome with (md := probedMetadata format streams).
    destruct (hlsOutcome cli env 0 segmentLength playlistType
                (probedMetadata format streams)) as [[[]|message|code|] tr];
      cbn [fst snd]; rewrite ?onUnexpectedError_events by exact cli; cbn [snd];
      rewrite !invocations_app, invocations_preamble, ?invocations_unexpectedError,
        ?app_nil_r; reflexivity. }
  split; [exact Hinv|]. unfold planned_jobs. rewrite Hinv.
  destruct (ffmpeg_run env 0 (primaryCommand cli segmentLength playlistType));
    reflexivity.
Qed.

(** A primary invocation that ends is the only one. *)
Lemma X11_hls_one_or_two_invocations_witness :
  List.length
    (invocations (snd (main 1 (hls_cli "6" "vod") (lesson_env 125 copy always_end))))
  = 1%nat.
Proof.
  destruct (X11_hls_one_or_two_invocations (hls_cli "6" "vod")
              (lesson_env 125 copy always_end) 1
              (lesson_format 125) lesson_streams (JS.of_Z 125))
    as (segmentLength & playlistType & Hinv & _).
  - discriminate.
  - reflexivity.
  - reflexivity.
  - reflexivity.
  - reflexivity.
  - reflexivity.
  - reflexivity.
  - rewrite Hinv. reflexivity.
Defined.

(** ** The custom extension *)

Local Open Scope string_scope.

Lemma space_is_no_dot (c : ascii) : JS.is_space c = true -> Ascii.eqb c "." = false.
Proof.
  destruct c as [[] [] [] [] [] [] [] []]; intros H; try reflexivity; discriminate H.
Qed.

Lemma lower_keeps_dots (c : ascii) : Ascii.eqb (JS.lower_ascii c) "." = Ascii.eqb c ".".
Proof. destruct c as [[] [] [] [] [] [] [] []]; reflexivity. Qed.

Lemma count_dots_skip_spaces (s : string) :
  CustomExtension.count_dots (JS.skip_spaces s) = CustomExtension.count_dots s.
Proof.
  induction s as [|c s IH]; [reflexivity|]. cbn [JS.skip_spaces].
  destruct (JS.is_space c) eqn:Hc; [|reflexivity].
  cbn [CustomExtension.count_dots]. rewrite (space_is_no_dot c Hc). exact IH.
Qed.

Lemma count_dots_trimEnd (s : string) :
  CustomExtension.count_dots (CustomExtension.trimEnd s) = CustomExtension.count_dots s.
Proof.
  induction s as [|c s IH]; [reflexivity|]. cbn [CustomExtension.trimEnd].
  destruct (CustomExtension.trimEnd s) as [|k kept].
  - cbn [CustomExtension.count_dots] in *. rewrite <- IH.
    destruct (JS.is_space c) eqn:Hc; [|reflexivity].
    rewrite (space_is_no_dot c Hc). reflexivity.
  - cbn [CustomExtension.count_dots] in *. rewrite IH. reflexivity.
Qed.

Lemma count_dots_toLowerCase (s : string) :
  CustomExtension.count_dots (JS.toLowerCase s) = CustomExtension.count_dots s.
Proof.
  induction s as [|c s IH]; [reflexivity|].
  cbn [JS.toLowerCase CustomExtension.count_dots]. rewrite lower_keeps_dots, IH.
  reflexivity.
Qed.

Lemma count_dots_replace (s : string) :
  CustomExtension.count_dots (CustomExtension.replace_first_dot s)
  = (CustomExtension.count_dots s - 1)%nat.
Proof.
  induction s as [|c s IH]; [reflexivity|].
  cbn [CustomExtension.replace_first_dot CustomExtension.count_dots].
  destruct (Ascii.eqb c ".") eqn:Hc; [lia|].
  cbn [CustomExtension.count_dots]. rewrite Hc, IH. reflexivity.
Qed.

Lemma replace_without_dot (s : string) :
  CustomExtension.count_dots s = 0%nat -> CustomExtension.replace_first_dot s = s.
Proof.
  induction s as [|c s IH]; [reflexivity|].
  cbn [CustomExtension.replace_first_dot CustomExtension.count_dots].
  destruct (Ascii.eqb c "."); [discriminate|]. intros H. rewrite IH by exact H.
  reflexivity.
Qed.

Lemma trimEnd_idempotent (s : string) :
  CustomExtension.trimEnd (CustomExtension.trimEnd s) = CustomExtension.trimEnd s.
Proof.
  induction s as [|c s IH]; [reflexivity|]. cbn [CustomExtension.trimEnd].
  destruct (CustomExtension.trimEnd s) as [|k kept] eqn:Hs.
  - destruct (JS.is_space c) eqn:Hc; [reflexivity|].
    cbn [CustomExtension.trimEnd]. rewrite Hc. reflexivity.
  - cbn [CustomExtension.trimEnd] in *. rewrite IH. reflexivity.
Qed.

Lemma trimEnd_keeps_start (s : string) :
  JS.skip_spaces s = s -> JS.skip_spaces (CustomExtension.trimEnd s) = CustomExtension.trimEnd s.
Proof.
  destruct s as [|c s]; [reflexivity|]. cbn [JS.skip_spaces].
  destruct (JS.is_space c) eqn:Hc.
  - intros Hskip. exfalso.
    assert (Hlen : forall t, (String.length (JS.skip_spaces t) <= String.length t)%nat).
    { induction t as [|x t IHt]; [reflexivity|]. cbn [JS.skip_spaces].
      destruct (JS.is_space x); cbn [String.length]; lia. }
    pose proof (Hlen s) as Hs. rewrite Hskip in Hs. cbn [String.length] in Hs. lia.
  - intros _. cbn [CustomExtension.trimEnd].
    destruct (CustomExtension.trimEnd s); [rewrite Hc|]; cbn [JS.skip_spaces];
      rewrite Hc; reflexivity.
Qed.

Lemma skip_spaces_idempotent (s : string) :
  JS.skip_spaces (JS.skip_spaces s) = JS.skip_spaces s.
Proof.
  induction s as [|c s IH]; [reflexivity|]. cbn [JS.skip_spaces].
  destruct (JS.is_space c) eqn:Hc; [exact IH|]. cbn [JS.skip_spaces]. rewrite Hc.
  reflexivity.
Qed.

Lemma trim_idempotent (s : string) :
  CustomExtension.trim (CustomExtension.trim s) = CustomExtension.trim s.
Proof.
  unfold CustomExtension.trim.
  rewrite (trimEnd_keeps_start (JS.skip_spaces s)) by apply skip_spaces_idempotent.
  apply trimEnd_idempotent.
Qed.

(** X12: the filter of the custom-extension prompt removes one dot, the
    first, and no other: the extension kept has one dot fewer than the text
    typed, and as many when there was none; so for a text without a dot a
    leading dot changes nothing.  What is kept is already trimmed. *)
Theorem X12_custom_extension_filter (input : string) :
  CustomExtension.count_dots (CustomExtension.filter input)
  = (CustomExtension.count_dots input - 1)%nat /\
  (CustomExtension.count_dots input = 0%nat ->
   CustomExtension.filter ("." ++ input) = CustomExtension.filter input) /\
  CustomExtension.trim (CustomExtension.filter input) = CustomExtension.filter input.
Proof.
  unfold CustomExtension.filter. split; [|split].
  - unfold CustomExtension.trim.
    rewrite count_dots_trimEnd, count_dots_skip_spaces, count_dots_toLowerCase.
    apply count_dots_replace.
  - intros Hnone. cbn [append CustomExtension.replace_first_dot].
    replace (Ascii.eqb "." ".") with true by reflexivity.
    rewrite (replace_without_dot input Hnone). reflexivity.
  - apply trim_idempotent.
Qed.

Local Close Scope string_scope.

